(** * Verification of the vm-detect scoring engine and behavioural analyzer

    Shallow embedding of [detector.py] ([VMRemoteDetector], with its text
    report [format_report]), of [behavioral_analyzer.py]
    ([BehavioralAnalyzer]) and of the process scan [get_processes] of
    [collector.py].

    - Python values reaching the detector (the snapshot dictionary built by
      [collect_all] and the signature document read by [json.load]) are the
      inductive [value]; Python floats and ints are rationals [Q], so the
      model's numbers are finite and exact (JSON's [NaN] and [Infinity],
      which [json.load] accepts, are outside it). Scores are stated the way
      the code computes them (a running sum from [0.0] in evidence order,
      then [min(., 1.0)]; the code's own comparisons), so that the statements
      read the same for Python floats. Booleans keep their own constructor
      because Python treats [True] as [1] in arithmetic and comparisons.
    - Code that may raise is written in the exception monad [Res].
    - Strings are [String.string]; [str.lower] is ASCII lowercasing. *)

From Stdlib Require Import String Ascii List Bool ZArith QArith Lia.
Import ListNotations.
Open Scope string_scope.
Open Scope list_scope.
Set Warnings "-register-all".

(** ** Python values and exceptions *)

Inductive value : Type :=
| VNull
| VBool (b : bool)
| VNum (q : Q)
| VStr (s : string)
| VList (l : list value)
| VDict (d : list (string * value)).

Inductive py_exc : Type :=
| AttributeError
| TypeError
| OSError.

Inductive Res (A : Type) : Type :=
| Ok (a : A)
| Exc (e : py_exc).
Arguments Ok {A} a.
Arguments Exc {A} e.

Definition res_bind {A B} (m : Res A) (k : A -> Res B) : Res B :=
  match m with
  | Ok a => k a
  | Exc e => Exc e
  end.

Notation "x <- m ;; k" := (res_bind m (fun x => k))
  (at level 61, m at next level, right associativity).

Notation "' p <- m ;; k" := (res_bind m (fun x => match x with p => k end))
  (at level 61, p pattern, m at next level, right associativity).

(** Running a loop body over a list, threading an accumulator. *)
Fixpoint py_for {A B} (l : list A) (acc : B) (body : B -> A -> Res B) : Res B :=
  match l with
  | [] => Ok acc
  | x :: xs => acc' <- body acc x ;; py_for xs acc' body
  end.

(** ** Python builtins on values *)

(** [bool(v)] *)
Definition truthy (v : value) : bool :=
  match v with
  | VNull => false
  | VBool b => b
  | VNum q => negb (Qeq_bool q 0)
  | VStr s => negb (String.eqb s "")
  | VList l => match l with [] => false | _ => true end
  | VDict d => match d with [] => false | _ => true end
  end.

(** Numeric view of a value in arithmetic and ordering ([True] is 1);
    [None] when Python raises [TypeError]. *)
Definition to_num (v : value) : option Q :=
  match v with
  | VBool b => Some (if b then 1 else 0)
  | VNum q => Some q
  | _ => None
  end.

Definition num_exc (v : value) : Res Q :=
  match to_num v with Some q => Ok q | None => Exc TypeError end.

Definition qlt (a b : Q) : bool := negb (Qle_bool b a).

(** [min(x, 1.0)]: Python's [min] keeps its first argument unless the
    second is strictly smaller. *)
Definition py_min (x y : Q) : Q := if qlt y x then y else x.

Definition hashable (v : value) : bool :=
  match v with VList _ | VDict _ => false | _ => true end.

(** [==] where at least one side is a scalar (the only uses in the
    detector: set membership of hashable values and comparison with a
    string or an int literal). *)
Definition py_eq (v w : value) : bool :=
  match v, w with
  | VNull, VNull => true
  | VStr s, VStr t => String.eqb s t
  | VStr _, _ | _, VStr _ => false
  | VNull, _ | _, VNull => false
  | _, _ =>
      match to_num v, to_num w with
      | Some a, Some b => Qeq_bool a b
      | _, _ => false
      end
  end.

Definition chars (s : string) : list value :=
  map (fun c => VStr (String c EmptyString)) (list_ascii_of_string s).

(** [for x in v]: lists, strings (characters) and dicts (keys). *)
Definition py_iter (v : value) : Res (list value) :=
  match v with
  | VList l => Ok l
  | VStr s => Ok (chars s)
  | VDict d => Ok (map (fun kv => VStr (fst kv)) d)
  | _ => Exc TypeError
  end.

(** [len(v)] *)
Definition py_len (v : value) : Res nat :=
  match v with
  | VList l => Ok (length l)
  | VStr s => Ok (String.length s)
  | VDict d => Ok (length d)
  | _ => Exc TypeError
  end.

Fixpoint assoc (k : string) (d : list (string * value)) : option value :=
  match d with
  | [] => None
  | (k', v) :: d' => if String.eqb k k' then Some v else assoc k d'
  end.

(** [d.get(k, default)]: [d] must be a dict (else [AttributeError]); the
    key must be hashable (else [TypeError]); the dicts reaching the detector
    have string keys only, so a non-string key is never found. *)
Definition py_get (d k dflt : value) : Res value :=
  match d with
  | VDict items =>
      match k with
      | VStr s => Ok (match assoc s items with Some v => v | None => dflt end)
      | VList _ | VDict _ => Exc TypeError
      | _ => Ok dflt
      end
  | _ => Exc AttributeError
  end.

Definition getk (d : value) (k : string) (dflt : value) : Res value :=
  py_get d (VStr k) dflt.

(** ASCII [str.lower] *)
Definition lower_char (c : ascii) : ascii :=
  let n := nat_of_ascii c in
  if (65 <=? n)%nat && (n <=? 90)%nat then ascii_of_nat (n + 32) else c.

Fixpoint lower (s : string) : string :=
  match s with
  | EmptyString => EmptyString
  | String c s' => String (lower_char c) (lower s')
  end.

(** [s.replace(":", "-")] *)
Fixpoint replace_colon (s : string) : string :=
  match s with
  | EmptyString => EmptyString
  | String c s' =>
      String (if Ascii.eqb c ":"%char then "-"%char else c) (replace_colon s')
  end.

(** [s.startswith(p)] *)
Fixpoint startswith (s p : string) : bool :=
  match p, s with
  | EmptyString, _ => true
  | String c p', String d s' => Ascii.eqb c d && startswith s' p'
  | String _ _, EmptyString => false
  end.

(** [p in s] on strings *)
Fixpoint substr (p s : string) : bool :=
  startswith s p ||
  match s with
  | EmptyString => false
  | String _ s' => substr p s'
  end.

(** [x in s] where [s] is a string: the left operand must be a string. *)
Definition str_in (x : value) (s : string) : Res bool :=
  match x with
  | VStr p => Ok (substr p s)
  | _ => Exc TypeError
  end.

(** [x in c] for a container [c] (lists, strings, dicts). *)
Definition py_in (x c : value) : Res bool :=
  match c with
  | VList l => Ok (existsb (py_eq x) l)
  | VStr s => str_in x s
  | VDict d =>
      if hashable x then Ok (existsb (fun kv => py_eq x (VStr (fst kv))) d)
      else Exc TypeError
  | _ => Exc TypeError
  end.

(** [v.lower()]: only strings have the method. *)
Definition py_lower (v : value) : Res string :=
  match v with
  | VStr s => Ok (lower s)
  | _ => Exc AttributeError
  end.

(** [set(v)]: iterable with hashable elements; kept as the list of its
    elements (membership is all the detector asks of it). *)
Definition py_set (v : value) : Res (list value) :=
  l <- py_iter v ;;
  if forallb hashable l then Ok l else Exc TypeError.

(** [x in s] for a set [s] *)
Definition set_mem (x : value) (s : list value) : Res bool :=
  if hashable x then Ok (existsb (py_eq x) s) else Exc TypeError.

(** [score += w]: the float accumulator plus a configured weight. *)
Definition add_num (score : Q) (w : value) : Res Q :=
  q <- num_exc w ;; Ok (score + q).

(** [a > b], [a >= b], [a < b] with numbers. *)
Definition py_gt (a b : value) : Res bool :=
  x <- num_exc a ;; y <- num_exc b ;; Ok (qlt y x).
Definition py_ge (a b : value) : Res bool :=
  x <- num_exc a ;; y <- num_exc b ;; Ok (Qle_bool y x).

(** ** Signatures and the detector object *)

(** [VMRemoteDetector]: the loaded signature document and the two
    sub-objects picked from it by [__init__]. *)
Record detector : Type := mk_detector {
  signatures : value;
  weights : value;
  thresholds : value
}.

(** Outcome of reading the signature file.  [FileText None] is text that
    [json.load] rejects ([JSONDecodeError]); [FileUnreadable] is an
    [open]/read failure other than a missing file (permission denied, a
    directory, undecodable bytes). *)
Inductive sig_source : Type :=
| FileMissing
| FileUnreadable
| FileText (parsed : option value).

(** [_get_default_signatures] *)
Definition get_default_signatures : value :=
  VDict [("vm_indicators", VDict [("bios_keywords", VList []); ("processes", VList [])]);
         ("remote_indicators", VDict [("processes", VList []); ("ports", VList [])]);
         ("screen_share_indicators", VDict [("processes", VList [])]);
         ("weights", VDict []);
         ("thresholds", VDict [])].

(** [_load_signatures]: only [FileNotFoundError] and [JSONDecodeError]
    are caught. *)
Definition load_signatures (src : sig_source) : Res value :=
  match src with
  | FileMissing => Ok get_default_signatures
  | FileUnreadable => Exc OSError
  | FileText None => Ok get_default_signatures
  | FileText (Some v) => Ok v
  end.

(** [__init__] *)
Definition init_detector (src : sig_source) : Res detector :=
  sigs <- load_signatures src ;;
  w <- getk sigs "weights" (VDict []) ;;
  t <- getk sigs "thresholds" (VDict []) ;;
  Ok (mk_detector sigs w t).

(** Evidence strings, kept as the data their f-strings print. *)
Inductive evidence : Type :=
| EvBios (keyword : value)            (* "BIOS: {keyword} found in manufacturer/product" *)
| EvCpu (keyword : value)             (* "CPU: {keyword} found in CPU info" *)
| EvMac (mac vendor : value)          (* "MAC: {mac} matches VM vendor {vendor}" *)
| EvProcess (proc : value)            (* "Process: {proc} is running" *)
| EvPort (port : value)               (* "Port: {port} is listening ..." *)
| EvSession (session_name : string)   (* "Session: {session_name} matches ..." *)
| EvSsh                               (* "Session: SSH connection detected" *)
| EvGpu (keyword : string)            (* "GPU: {keyword} found in GPU name" *)
| EvNoGpu                             (* "GPU: No GPU indicators detected ..." *)
| EvTimingVariance (variance : Q)
| EvCpuCount (cpu_count : value)
| EvFixedFreq (cpu_freq freq_range : Q)
| EvMeeting (browser conn_count : value)
| EvBrowserMeeting (browser : string)
| EvBrowser (browser : string).

Definition acc := (Q * list evidence)%type.

(** [self.weights.get(key, dflt)] *)
Definition weight (self : detector) (key : string) (dflt : Q) : Res value :=
  getk self.(weights) key (VNum dflt).

(** [score += self.weights.get(key, dflt); matches.append(ev)] *)
Definition hit (self : detector) (a : acc) (key : string) (dflt : Q)
    (ev : evidence) : Res acc :=
  let '(score, matches) := a in
  w <- weight self key dflt ;;
  score' <- add_num score w ;;
  Ok (score', matches ++ [ev]).

(** [score += self.weights.get(key, dflt) * factor; matches.append(ev)] *)
Definition hit_scaled (self : detector) (a : acc) (key : string) (dflt factor : Q)
    (ev : evidence) : Res acc :=
  let '(score, matches) := a in
  w <- weight self key dflt ;;
  q <- num_exc w ;;
  Ok (score + q * factor, matches ++ [ev]).

(** [return min(score, 1.0), matches] *)
Definition finish (a : acc) : Res acc := Ok (py_min (fst a) 1, snd a).

(** [self.signatures.get(group, {}).get(key, [])] *)
Definition sig_list (self : detector) (group key : string) : Res value :=
  g <- getk self.(signatures) group (VDict []) ;;
  getk g key (VList []).

Section Checkers.

(** [str(v)] of a value that is not a string (Python's [repr] text of a
    number, [None], a list or a dict); no property below depends on it. *)
Context (py_repr : value -> string).
(** [platform.system().lower() == 'windows'] *)
Context (on_windows : bool).

Definition py_str (v : value) : string :=
  match v with VStr s => s | _ => py_repr v end.

(** [_check_bios_keywords] *)
Definition check_bios_keywords (self : detector) (bios_data : value) : Res acc :=
  keywords <- sig_list self "vm_indicators" "bios_keywords" ;;
  m <- getk bios_data "manufacturer" (VStr "") ;;
  p <- getk bios_data "product" (VStr "") ;;
  c <- getk bios_data "cpu_info" (VStr "") ;;
  let manufacturer := lower (py_str m) in
  let product := lower (py_str p) in
  let cpu_info := lower (py_str c) in
  kws <- py_iter keywords ;;
  a <- py_for kws (0, []) (fun a keyword =>
         in_m <- str_in keyword manufacturer ;;
         hit1 <- (if in_m then Ok true else str_in keyword product) ;;
         a <- (if hit1 then hit self a "bios_match" (2#5) (EvBios keyword) else Ok a) ;;
         in_c <- str_in keyword cpu_info ;;
         if in_c then hit self a "cpu_match" (1#5) (EvCpu keyword) else Ok a) ;;
  finish a.

(** [_check_mac_addresses] *)
Definition check_mac_addresses (self : detector) (mac_addresses : value) : Res acc :=
  vm_mac_vendors <- sig_list self "vm_indicators" "mac_vendors" ;;
  macs <- py_iter mac_addresses ;;
  a <- py_for macs (0, []) (fun a mac =>
         ml <- py_lower mac ;;
         let mac_lower := replace_colon ml in
         vendors <- py_iter vm_mac_vendors ;;
         py_for vendors a (fun a vendor =>
           vl <- py_lower vendor ;;
           let vendor_normalized := replace_colon vl in
           if startswith mac_lower vendor_normalized
           then hit self a "mac_match" (3#10) (EvMac mac vendor)
           else Ok a)) ;;
  finish a.

(** [_check_processes(processes, process_list)] *)
Definition check_processes (self : detector) (processes process_list : value) : Res acc :=
  process_set <- py_set process_list ;;
  procs <- py_iter processes ;;
  a <- py_for procs (0, []) (fun a proc =>
         b <- set_mem proc process_set ;;
         if b then hit self a "process_match" (1#4) (EvProcess proc) else Ok a) ;;
  finish a.

(** [_check_ports] *)
Definition check_ports (self : detector) (listening_ports : value) : Res acc :=
  remote_ports <- sig_list self "remote_indicators" "ports" ;;
  port_set <- py_set listening_ports ;;
  ports <- py_iter remote_ports ;;
  a <- py_for ports (0, []) (fun a port =>
         b <- set_mem port port_set ;;
         if b then hit self a "port_match" (3#20) (EvPort port) else Ok a) ;;
  finish a.

(** [_check_session] *)
Definition check_session (self : detector) (session_data : value) : Res acc :=
  session_keywords <- sig_list self "remote_indicators" "session_keywords" ;;
  sn <- getk session_data "session_name" (VStr "") ;;
  let session_name := lower (py_str sn) in
  ssh_connection <- getk session_data "ssh_connection" (VBool false) ;;
  kws <- py_iter session_keywords ;;
  a <- py_for kws (0, []) (fun a keyword =>
         b <- str_in keyword session_name ;;
         if b then hit self a "session_match" (3#10) (EvSession session_name) else Ok a) ;;
  a <- (if truthy ssh_connection
        then hit self a "session_match" (3#10) EvSsh else Ok a) ;;
  finish a.

Definition vm_gpu_keywords : list string :=
  ["vmware"; "virtualbox"; "virtual"; "qxl"; "vbox"; "cirrus"].

(** [_check_gpu_artifacts] *)
Definition check_gpu_artifacts (self : detector) (gpu_data : value) : Res acc :=
  gpu_count <- getk gpu_data "count" (VNum 0) ;;
  gpu_devices <- getk gpu_data "devices" (VList []) ;;
  devices <- py_iter gpu_devices ;;
  a <- py_for devices (0, []) (fun a device =>
         device_name <- (match device with
                         | VDict _ => n <- getk device "name" (VStr "") ;; Ok (lower (py_str n))
                         | _ => Ok (lower (py_str device))
                         end) ;;
         py_for vm_gpu_keywords a (fun a keyword =>
           if substr keyword device_name
           then hit self a "gpu_match" (3#20) (EvGpu keyword) else Ok a)) ;;
  a <- (if on_windows then
          nvidia_driver <- getk gpu_data "nvidia_driver" (VBool false) ;;
          amd_driver <- getk gpu_data "amd_driver" (VBool false) ;;
          intel_driver <- getk gpu_data "intel_driver" (VBool false) ;;
          gpu_processes <- getk gpu_data "processes" (VList []) ;;
          none <- (if negb (truthy nvidia_driver) && negb (truthy amd_driver)
                      && negb (truthy intel_driver) && py_eq gpu_count (VNum 0)
                   then n1 <- py_len gpu_processes ;;
                        if Nat.eqb n1 0
                        then n2 <- py_len gpu_devices ;; Ok (Nat.eqb n2 0)
                        else Ok false
                   else Ok false) ;;
          if none then hit_scaled self a "gpu_match" (3#20) (1#5) EvNoGpu else Ok a
        else Ok a) ;;
  finish a.

Definition common_cpu_counts : list value :=
  map (fun z => VNum (inject_Z z)) [1; 2; 4; 6; 8; 12; 16; 24; 32]%Z.

(** [a and b] where both operands are comparisons *)
Definition and_then (b1 : Res bool) (b2 : Res bool) : Res bool :=
  b <- b1 ;; if b then b2 else Ok false.

(** [_check_timing_anomalies] *)
Definition check_timing_anomalies (self : detector) (timing_data : value) : Res acc :=
  variance <- getk timing_data "variance" (VNum 0) ;;
  std_dev <- getk timing_data "std_dev" (VNum 0) ;;
  avg_time <- getk timing_data "avg_time" (VNum 0) ;;
  min_time <- getk timing_data "min_time" (VNum 0) ;;
  max_time <- getk timing_data "max_time" (VNum 0) ;;
  c1 <- and_then (py_gt variance (VNum 3)) (py_gt avg_time (VNum 0)) ;;
  a <- (if c1 then
          c2 <- and_then (py_gt min_time (VNum 0)) (py_gt max_time (VNum 0)) ;;
          if c2 then
            mx <- num_exc max_time ;; mn <- num_exc min_time ;; av <- num_exc avg_time ;;
            let time_range_ratio := if qlt 0 av then (mx - mn) / av else 0 in
            if qlt (5#2) time_range_ratio then
              v <- num_exc variance ;;
              hit_scaled self (0, []) "timing_match" (3#20) (3#5) (EvTimingVariance v)
            else Ok (0, [])
          else Ok (0, [])
        else Ok (0, [])) ;;
  odd_cpu_count <- getk timing_data "odd_cpu_count" (VBool false) ;;
  cpu_count <- getk timing_data "cpu_count" (VNum 0) ;;
  c3 <- (if truthy odd_cpu_count then py_gt cpu_count (VNum 1) else Ok false) ;;
  a <- (if c3 then
          if negb (existsb (py_eq cpu_count) common_cpu_counts)
          then hit_scaled self a "timing_match" (3#20) (1#2) (EvCpuCount cpu_count)
          else Ok a
        else Ok a) ;;
  cpu_freq <- getk timing_data "cpu_freq_current" (VNum 0) ;;
  cpu_freq_min <- getk timing_data "cpu_freq_min" (VNum 0) ;;
  cpu_freq_max <- getk timing_data "cpu_freq_max" (VNum 0) ;;
  c4 <- and_then (and_then (py_gt cpu_freq (VNum 0)) (py_gt cpu_freq_min (VNum 0)))
                 (py_gt cpu_freq_max (VNum 0)) ;;
  a <- (if c4 then
          fx <- num_exc cpu_freq_max ;; fn <- num_exc cpu_freq_min ;;
          let freq_range := fx - fn in
          if qlt freq_range 10 then
            f <- num_exc cpu_freq ;;
            hit_scaled self a "timing_match" (3#20) (1#2) (EvFixedFreq f freq_range)
          else Ok a
        else Ok a) ;;
  finish a.

(** [detect_vm] *)
Definition detect_vm (self : detector) (system_data : value) : Res acc :=
  bios <- getk system_data "bios" (VDict []) ;;
  '(bios_score, bios_matches) <- check_bios_keywords self bios ;;
  network <- getk system_data "network" (VDict []) ;;
  macs <- getk network "mac_addresses" (VList []) ;;
  '(mac_score, mac_matches) <- check_mac_addresses self macs ;;
  vm_processes <- sig_list self "vm_indicators" "processes" ;;
  procs <- getk system_data "processes" (VList []) ;;
  '(proc_score, proc_matches) <- check_processes self vm_processes procs ;;
  gpu <- getk system_data "gpu" (VDict []) ;;
  '(gpu_score, gpu_matches) <- check_gpu_artifacts self gpu ;;
  let total_score := 0 + bios_score + mac_score + proc_score + gpu_score in
  let all_matches := bios_matches ++ mac_matches ++ proc_matches ++ gpu_matches in
  if qlt (1#5) total_score then
    timing <- getk system_data "timing" (VDict []) ;;
    '(timing_score, timing_matches) <- check_timing_anomalies self timing ;;
    Ok (py_min (total_score + timing_score) 1, all_matches ++ timing_matches)
  else Ok (py_min total_score 1, all_matches).

(** [detect_remote_access] *)
Definition detect_remote_access (self : detector) (system_data : value) : Res acc :=
  remote_processes <- sig_list self "remote_indicators" "processes" ;;
  procs <- getk system_data "processes" (VList []) ;;
  '(proc_score, proc_matches) <- check_processes self remote_processes procs ;;
  network <- getk system_data "network" (VDict []) ;;
  ports <- getk network "listening_ports" (VList []) ;;
  '(port_score, port_matches) <- check_ports self ports ;;
  session <- getk system_data "session" (VDict []) ;;
  '(session_score, session_matches) <- check_session self session ;;
  Ok (py_min (0 + proc_score + port_score + session_score) 1,
      proc_matches ++ port_matches ++ session_matches).

(** [set.add] on a set of strings, kept in insertion order. *)
Definition set_add (x : string) (s : list string) : list string :=
  if existsb (String.eqb x) s then s else s ++ [x].

Definition qnat (n : nat) : Q := inject_Z (Z.of_nat n).

(** The browser scan of [detect_screen_share]: [(found_browsers,
    found_browser_screenshare)]. *)
Definition scan_browsers (browser_processes : value) (procs : list value)
    : Res (list string * list string) :=
  py_for procs ([], []) (fun '(fb, fbs) process_name =>
    browsers <- py_iter browser_processes ;;
    py_for browsers (fb, fbs) (fun '(fb, fbs) browser =>
      b <- py_lower browser ;;
      if py_eq (VStr b) process_name then Ok (set_add b fb, fbs)
      else if py_eq (VStr (String.append b "_screenshare")) process_name
      then Ok (fb, set_add b fbs)
      else Ok (fb, fbs))).

(** The browser evidence tiers of [detect_screen_share]:
    [if active_meeting_browsers: ... elif found_browser_screenshare: ...
    elif found_browsers: ...]. *)
Definition meeting_tiers (score : Q) (matches : list evidence)
    (active_meeting_browsers detected_domains connection_counts : value)
    (found_browsers found_browser_screenshare : list string) : Res acc :=
  if truthy active_meeting_browsers then
    let meeting_score := 1#4 in
    let score := score + meeting_score in
    amb <- py_iter active_meeting_browsers ;;
    matches <- py_for amb matches (fun matches browser =>
                 conn_count <- py_get connection_counts browser (VNum 0) ;;
                 _ <- (if truthy detected_domains
                       then py_in (VStr "high_connection_count") detected_domains
                       else Ok false) ;;
                 Ok (matches ++ [EvMeeting browser conn_count])) ;;
    Ok (score, matches)
  else match found_browser_screenshare with
  | _ :: _ =>
      let browser_score := (1#4) * qnat (length found_browser_screenshare) in
      Ok (score + py_min browser_score (7#20),
          matches ++ map EvBrowserMeeting found_browser_screenshare)
  | [] =>
      match found_browsers with
      | _ :: _ =>
          let browser_score := (1#10) * qnat (length found_browsers) in
          Ok (score + py_min browser_score (1#5), matches ++ map EvBrowser found_browsers)
      | [] => Ok (score, matches)
      end
  end.

(** [detect_screen_share] *)
Definition detect_screen_share (self : detector) (system_data : value) : Res acc :=
  screen_share_sigs <- getk self.(signatures) "screen_share_indicators" (VDict []) ;;
  screen_processes <- getk screen_share_sigs "processes" (VList []) ;;
  procs <- getk system_data "processes" (VList []) ;;
  '(score, matches) <- check_processes self screen_processes procs ;;
  browser_processes <- getk screen_share_sigs "browser_processes" (VList []) ;;
  procs <- getk system_data "processes" (VList []) ;;
  proc_list <- py_iter procs ;;
  '(found_browsers, found_browser_screenshare) <- scan_browsers browser_processes proc_list ;;
  browser_conns <- getk system_data "browser_connections" (VDict []) ;;
  active_meeting_browsers <- getk browser_conns "active_meeting_browsers" (VList []) ;;
  detected_domains <- getk browser_conns "detected_meeting_domains" (VList []) ;;
  connection_counts <- getk browser_conns "browser_connection_counts" (VDict []) ;;
  '(score, matches) <- meeting_tiers score matches active_meeting_browsers
                          detected_domains connection_counts
                          found_browsers found_browser_screenshare ;;
  finish (score, matches).

(** The dictionary returned by [analyze]. *)
Record result : Type := mk_result {
  vm_detected : bool;
  vm_confidence : Q;
  vm_matches : list evidence;
  remote_access_detected : bool;
  remote_access_confidence : Q;
  remote_access_matches : list evidence;
  screen_share_detected : bool;
  screen_share_confidence : Q;
  screen_share_matches : list evidence;
  system_data_of : value
}.

(** [analyze(system_data)] *)
Definition analyze (self : detector) (system_data : value) : Res result :=
  '(vm_score, vm_m) <- detect_vm self system_data ;;
  '(remote_score, remote_m) <- detect_remote_access self system_data ;;
  '(screen_score, screen_m) <- detect_screen_share self system_data ;;
  vm_threshold <- getk self.(thresholds) "vm_confidence" (VNum (1#2)) ;;
  remote_threshold <- getk self.(thresholds) "remote_confidence" (VNum (2#5)) ;;
  screen_threshold <- getk self.(thresholds) "screen_share_confidence" (VNum (3#10)) ;;
  vd <- py_ge (VNum vm_score) vm_threshold ;;
  rd <- py_ge (VNum remote_score) remote_threshold ;;
  sd <- py_ge (VNum screen_score) screen_threshold ;;
  Ok (mk_result vd vm_score vm_m rd remote_score remote_m sd screen_score screen_m
                system_data).

End Checkers.

(** ** [BehavioralAnalyzer] *)

(** [l[i:]] with Python's clamping of negative and out-of-range starts. *)
Definition slice_from {A} (l : list A) (i : Z) : list A :=
  let n := Z.of_nat (length l) in
  let i' := if (i <? 0)%Z then Z.max 0 (n + i) else Z.min i n in
  skipn (Z.to_nat i') l.

(** [l[-m:]] (note that [-0] is [0]). *)
Definition keep_last {A} (l : list A) (m : Z) : list A := slice_from l (- m).

(** The analyzer's state: [self.history] (entries as stored in the JSON
    history file) and [self.max_history]. *)
Record analyzer : Type := mk_analyzer {
  history : list value;
  max_history : Z
}.

(** [_save_history]: trims the history; the file write that follows is
    best effort ([IOError] is swallowed) and leaves the state alone. *)
Definition save_history (a : analyzer) : analyzer :=
  mk_analyzer (keep_last (history a) (max_history a)) (max_history a).

(** The history entry built by [add_detection]; [timestamp] is
    [datetime.now().isoformat()]. *)
Definition history_entry (timestamp : string) (r : result) : Res value :=
  metrics <- getk (system_data_of r) "metrics" (VDict []) ;;
  Ok (VDict [("timestamp", VStr timestamp);
             ("vm_detected", VBool (vm_detected r));
             ("vm_confidence", VNum (vm_confidence r));
             ("remote_access_detected", VBool (remote_access_detected r));
             ("remote_access_confidence", VNum (remote_access_confidence r));
             ("screen_share_detected", VBool (screen_share_detected r));
             ("screen_share_confidence", VNum (screen_share_confidence r));
             ("metrics", metrics)]).

(** [add_detection] *)
Definition add_detection (timestamp : string) (r : result) (a : analyzer) : Res analyzer :=
  entry <- history_entry timestamp r ;;
  Ok (save_history (mk_analyzer (history a ++ [entry]) (max_history a))).

Fixpoint map_res {A B} (f : A -> Res B) (l : list A) : Res (list B) :=
  match l with
  | [] => Ok []
  | x :: xs => y <- f x ;; ys <- map_res f xs ;; Ok (y :: ys)
  end.

(** [sum(l)] *)
Definition py_sum (l : list value) : Res Q := py_for l 0 add_num.

(** [sum(1 for h in history if h.get(key, False))] *)
Definition count_flag (hs : list value) (key : string) : Res nat :=
  py_for hs 0%nat (fun n h =>
    v <- getk h key (VBool false) ;;
    Ok (if truthy v then S n else n)).

(** [[m.get(key, 0) for m in ms if m.get(key)]] *)
Definition present_metric (ms : list value) (key : string) : Res (list value) :=
  py_for ms [] (fun out m =>
    v <- getk m key VNull ;;
    if truthy v then v' <- getk m key (VNum 0) ;; Ok (out ++ [v']) else Ok out).

(** [sum(l) / len(l)] for a non-empty list *)
Definition py_avg (l : list value) : Res Q :=
  s <- py_sum l ;; Ok (s / qnat (length l)).

Inductive anomaly : Type :=
| SuddenVM (timestamp confidence : value)         (* 'sudden_vm_detection' *)
| SuddenRemote (timestamp confidence : value)     (* 'sudden_remote_access' *)
| SuddenScreenShare (timestamp confidence : value)(* 'sudden_screen_share' *)
| ConsistentVMHigh (count : nat) (percentage : Q) (* 'consistent_vm_high_confidence' *)
| HighCPU (average : Q)                           (* 'high_cpu_usage' *)
| HighMemory (average : Q).                       (* 'high_memory_usage' *)

(** The dictionary returned by [analyze_patterns]: either
    [{'sufficient_data': False, 'message': ...}] or the full analysis. *)
Inductive pattern_report : Type :=
| Insufficient
| Sufficient (total_detections vm_detections remote_detections
              screen_share_detections : nat)
             (avg_vm_confidence avg_remote_confidence avg_screen_share_confidence : Q)
             (anomalies : list anomaly).

Definition sufficient_data (p : pattern_report) : bool :=
  match p with Insufficient => false | Sufficient _ _ _ _ _ _ _ _ => true end.

Definition anomalies_of (p : pattern_report) : option (list anomaly) :=
  match p with Insufficient => None | Sufficient _ _ _ _ _ _ _ an => Some an end.

(** [not previous.get(key, False) and recent.get(key, False)] and the
    event appended in that case. *)
Definition sudden (previous recent : value) (key conf_key : string)
    (mk : value -> value -> anomaly) : Res (list anomaly) :=
  p <- getk previous key (VBool false) ;;
  if truthy p then Ok []
  else
    c <- getk recent key (VBool false) ;;
    if truthy c then
      ts <- getk recent "timestamp" VNull ;;
      conf <- getk recent conf_key (VNum 0) ;;
      Ok [mk ts conf]
    else Ok [].

Definition last_two (h : list value) : value * value :=
  match rev h with
  | r :: p :: _ => (p, r)
  | _ => (VNull, VNull)
  end.

(** Check 3 of [analyze_patterns]: metric anomalies over the last five
    entries. *)
Definition metric_anomalies (h : list value) : Res (list anomaly) :=
  if (5 <=? length h)%nat then
    recent_metrics <- map_res (fun e => getk e "metrics" (VDict [])) (keep_last h 5) ;;
    cpu <- present_metric recent_metrics "cpu_percent" ;;
    mem <- present_metric recent_metrics "memory_percent" ;;
    c <- (match cpu with
          | [] => Ok []
          | _ => avg <- py_avg cpu ;; Ok (if qlt 90 avg then [HighCPU avg] else [])
          end) ;;
    m <- (match mem with
          | [] => Ok []
          | _ => avg <- py_avg mem ;; Ok (if qlt 90 avg then [HighMemory avg] else [])
          end) ;;
    Ok (c ++ m)
  else Ok [].

(** [analyze_patterns] *)
Definition analyze_patterns (a : analyzer) : Res pattern_report :=
  let h := history a in
  if (length h <? 2)%nat then Ok Insufficient else
  vm_n <- count_flag h "vm_detected" ;;
  remote_n <- count_flag h "remote_access_detected" ;;
  screen_n <- count_flag h "screen_share_detected" ;;
  vm_confidences <- map_res (fun e => getk e "vm_confidence" (VNum 0)) h ;;
  remote_confidences <- map_res (fun e => getk e "remote_access_confidence" (VNum 0)) h ;;
  screen_confidences <- map_res (fun e => getk e "screen_share_confidence" (VNum 0)) h ;;
  avg_vm <- py_avg vm_confidences ;;
  avg_remote <- py_avg remote_confidences ;;
  avg_screen <- py_avg screen_confidences ;;
  let '(previous, recent) := last_two h in
  s1 <- sudden previous recent "vm_detected" "vm_confidence" SuddenVM ;;
  s2 <- sudden previous recent "remote_access_detected" "remote_access_confidence" SuddenRemote ;;
  s3 <- sudden previous recent "screen_share_detected" "screen_share_confidence" SuddenScreenShare ;;
  high <- py_for vm_confidences 0%nat (fun n c =>
            b <- py_gt c (VNum (7#10)) ;; Ok (if b then S n else n)) ;;
  let s4 := if qlt (qnat (length h) * (4#5)) (qnat high)
            then [ConsistentVMHigh high (qnat high / qnat (length h) * 100)]
            else [] in
  s5 <- metric_anomalies h ;;
  Ok (Sufficient (length h) vm_n remote_n screen_n avg_vm avg_remote avg_screen
                 (s1 ++ s2 ++ s3 ++ s4 ++ s5)).

(** The dictionary returned by [get_statistics]: either
    [{'total_detections': 0, 'message': ...}] or the full statistics. *)
Inductive stats_report : Type :=
| NoHistory
| Stats (total_detections vm_detections remote_detections screen_share_detections : nat)
        (vm_detection_rate remote_detection_rate screen_share_detection_rate : Q)
        (first_detection last_detection : value).

(** [get_statistics]; the dict literal evaluates its entries in order, so
    each count is computed twice. *)
Definition get_statistics (a : analyzer) : Res stats_report :=
  let h := history a in
  match h with
  | [] => Ok NoHistory
  | first :: _ =>
      vm_n <- count_flag h "vm_detected" ;;
      remote_n <- count_flag h "remote_access_detected" ;;
      screen_n <- count_flag h "screen_share_detected" ;;
      vm_n' <- count_flag h "vm_detected" ;;
      remote_n' <- count_flag h "remote_access_detected" ;;
      screen_n' <- count_flag h "screen_share_detected" ;;
      first_ts <- getk first "timestamp" VNull ;;
      last_ts <- getk (last h VNull) "timestamp" VNull ;;
      Ok (Stats (length h) vm_n remote_n screen_n
                (qnat vm_n' / qnat (length h) * 100)
                (qnat remote_n' / qnat (length h) * 100)
                (qnat screen_n' / qnat (length h) * 100)
                first_ts last_ts)
  end.

(** [clear_history] *)
Definition clear_history (a : analyzer) : analyzer :=
  save_history (mk_analyzer [] (max_history a)).

(** What [_load_history] finds at [self.history_file]: no file, a file
    that cannot be read or parsed ([IOError], [JSONDecodeError]), or the
    parsed JSON document. *)
Inductive history_file : Type :=
| NoFile
| Unreadable
| Json (data : value).

(** [_load_history] *)
Definition load_history (max_history : Z) (f : history_file) : list value :=
  match f with
  | Json (VList data) => keep_last data max_history
  | _ => []
  end.

(** [BehavioralAnalyzer(history_file, max_history)]: the analyzer state
    set up by [__init__]. *)
Definition init_analyzer (max_history : Z) (f : history_file) : analyzer :=
  mk_analyzer (load_history max_history f) max_history.

(** The file left by a successful [_save_history]: [json.dump] of the
    trimmed history, which [json.load] reads back as the same list. *)
Definition saved_file (a : analyzer) : history_file :=
  Json (VList (history (save_history a))).

(** ** Concrete inputs *)

(** A rendering for [str()] of non-string values, for evaluation. *)
Definition some_repr (v : value) : string := "".

(** The detector built when the signature file is missing. *)
Definition default_detector : detector :=
  mk_detector get_default_signatures (VDict []) (VDict []).

(** A snapshot whose MAC address list holds a number. *)
Definition snap_bad_mac : value :=
  VDict [("network", VDict [("mac_addresses", VList [VNum 5])])].

(** Every number in the [weights] object is non-negative (booleans count
    as 0 and 1; non-numbers make the weighting raise anyway). *)
Definition weights_nonneg (w : value) : bool :=
  match w with
  | VDict d =>
      forallb (fun kv => match to_num (snd kv) with
                         | Some q => Qle_bool 0 q
                         | None => true
                         end) d
  | _ => true
  end.

(** A signature document with one BIOS keyword and a negative weight. *)
Definition neg_weight_doc : value :=
  VDict [("vm_indicators", VDict [("bios_keywords", VList [VStr "virtualbox"])]);
         ("weights", VDict [("bios_match", VNum (-1))])].

Definition neg_weight_detector : detector :=
  mk_detector neg_weight_doc (VDict [("bios_match", VNum (-1))]) (VDict []).

(** A snapshot with a VirtualBox BIOS vendor. *)
Definition snap_vbox : value :=
  VDict [("bios", VDict [("manufacturer", VStr "innotek VirtualBox")])].

(** A snapshot that the built-in checks score without any signature: GPU
    names with VM keywords, an SSH session and a browser in a meeting. *)
Definition snap_default_hits : value :=
  VDict [("gpu", VDict [("devices", VList [VStr "VMware SVGA II (VirtualBox vbox qxl)"])]);
         ("session", VDict [("ssh_connection", VBool true)]);
         ("browser_connections", VDict [("active_meeting_browsers", VList [VStr "chrome"])])].

(** [entry.get(key, False)] read as a condition, for stating properties
    of history entries (a non-dict entry reads as false). *)
Definition flag (e : value) (key : string) : bool :=
  match getk e key (VBool false) with Ok v => truthy v | Exc _ => false end.

(** The detected-flag key of the category of a sudden-transition event. *)
Definition sudden_category (x : anomaly) : option string :=
  match x with
  | SuddenVM _ _ => Some "vm_detected"
  | SuddenRemote _ _ => Some "remote_access_detected"
  | SuddenScreenShare _ _ => Some "screen_share_detected"
  | _ => None
  end.

(** The number of sudden-transition events for the category [key]. *)
Definition count_sudden (key : string) (an : list anomaly) : nat :=
  length (filter (fun x => match sudden_category x with
                           | Some k => String.eqb k key
                           | None => false
                           end) an).

(** Two history entries: VM goes from clean to detected, the other
    categories stay off. *)
Definition vm_turns_on : analyzer :=
  mk_analyzer [VDict [("timestamp", VStr "t0"); ("vm_detected", VBool false);
                      ("remote_access_detected", VBool false)];
               VDict [("timestamp", VStr "t1"); ("vm_detected", VBool true);
                      ("remote_access_detected", VBool false)]] 100.

(** The browser-tier contribution as the screen-share specification
    describes it: only the first applicable tier of (1) active meeting
    browsers, (2) browsers with a meeting marker, (3) browsers present. *)
Definition tier_contribution (active_meeting_browsers : value)
    (found_browsers found_browser_screenshare : list string) : Q :=
  if truthy active_meeting_browsers then 1#4
  else match found_browser_screenshare with
  | _ :: _ => py_min ((1#4) * qnat (length found_browser_screenshare)) (7#20)
  | [] =>
      match found_browsers with
      | _ :: _ => py_min ((1#10) * qnat (length found_browsers)) (1#5)
      | [] => 0
      end
  end.

(** The evidence that tier adds. *)
Definition tier_evidence (active_meeting_browsers : value)
    (found_browsers found_browser_screenshare : list string) (added : list evidence) : Prop :=
  if truthy active_meeting_browsers then
    Forall (fun e => exists b c, e = EvMeeting b c) added
  else match found_browser_screenshare with
  | _ :: _ => added = map EvBrowserMeeting found_browser_screenshare
  | [] => added = map EvBrowser found_browsers
  end.

(** Signatures naming two browsers. *)
Definition browser_detector : detector :=
  mk_detector
    (VDict [("screen_share_indicators",
             VDict [("processes", VList []);
                    ("browser_processes", VList [VStr "chrome"; VStr "firefox"])])])
    (VDict []) (VDict []).

(** Two browsers with a meeting marker, and the same with a browser in
    an active meeting. *)
Definition snap_screenshare_only : value :=
  VDict [("processes", VList [VStr "chrome_screenshare"; VStr "firefox_screenshare"])].

Definition snap_meeting_and_screenshare : value :=
  VDict [("processes", VList [VStr "chrome_screenshare"; VStr "firefox_screenshare"]);
         ("browser_connections", VDict [("active_meeting_browsers", VList [VStr "chrome"])])].

(** [d.get(k, "")] of a dict, as read by the BIOS and session checks. *)
Definition field (d : list (string * value)) (k : string) : value :=
  match assoc k d with Some v => v | None => VStr "" end.

(** Signatures with a single BIOS keyword. *)
Definition bios_kw_detector (kw : string) : detector :=
  mk_detector (VDict [("vm_indicators", VDict [("bios_keywords", VList [VStr kw])])])
    (VDict []) (VDict []).

(** Signatures with a single remote-access process name. *)
Definition remote_proc_detector (name : string) : detector :=
  mk_detector (VDict [("remote_indicators", VDict [("processes", VList [VStr name])])])
    (VDict []) (VDict []).

(** The BIOS record of a VirtualBox guest. *)
Definition vbox_bios_fields : list (string * value) :=
  [("manufacturer", VStr "innotek GmbH"); ("product", VStr "VirtualBox");
   ("cpu_info", VStr "Intel Core")].

Definition snap_vbox_bios : value := VDict vbox_bios_fields.

Definition snap_teamviewer (name : string) : value :=
  VDict [("processes", VList [VStr name])].

(** A result with nothing detected, as [analyze] returns for an empty
    snapshot. *)
Definition clean_result : result :=
  mk_result false 0 [] false 0 [] false 0 [] (VDict []).

(** The history entry stored for [clean_result]. *)
Definition clean_entry (ts : string) : value :=
  VDict [("timestamp", VStr ts); ("vm_detected", VBool false); ("vm_confidence", VNum 0);
         ("remote_access_detected", VBool false); ("remote_access_confidence", VNum 0);
         ("screen_share_detected", VBool false); ("screen_share_confidence", VNum 0);
         ("metrics", VDict [])].

(** Signatures with the RDP and VNC ports. *)
Definition rdp_detector : detector :=
  mk_detector (VDict [("remote_indicators", VDict [("ports", VList [VNum 3389; VNum 5900])])])
    (VDict []) (VDict []).

(** Signatures with a single session keyword. *)
Definition session_kw_detector (kw : string) : detector :=
  mk_detector (VDict [("remote_indicators", VDict [("session_keywords", VList [VStr kw])])])
    (VDict []) (VDict []).

Definition rdp_ssh_session : list (string * value) :=
  [("session_name", VStr "RDP-Tcp#0"); ("ssh_connection", VBool true)].

(** [s.lower().replace(":", "-")] of a MAC address or vendor prefix. *)
Definition mac_norm (v : value) : string :=
  match v with VStr t => replace_colon (lower t) | _ => EmptyString end.

(** Signatures with the VirtualBox MAC prefix. *)
Definition vbox_mac_detector : detector :=
  mk_detector (VDict [("vm_indicators", VDict [("mac_vendors", VList [VStr "08:00:27"])])])
    (VDict []) (VDict []).

(** [device_name] in [_check_gpu_artifacts]: the lowercased [name] field
    of a dict device, the lowercased [str()] of any other device. *)
Definition gpu_device_name (py_repr : value -> string) (device : value) : string :=
  match device with
  | VDict kv => lower (py_str py_repr (field kv "name"))
  | _ => lower (py_str py_repr device)
  end.

(** A GPU record with a VMware adapter and a plain one. *)
Definition gpu_vmware : value :=
  VDict [("count", VNum 2);
         ("devices", VList [VDict [("name", VStr "VMware SVGA 3D")]; VStr "NVIDIA GeForce"])].

(** The share of the [timing_match] weight that [_check_timing_anomalies]
    adds with each of its findings. *)
Definition timing_factor (e : evidence) : Q :=
  match e with
  | EvTimingVariance _ => 3#5
  | EvCpuCount _ => 1#2
  | EvFixedFreq _ _ => 1#2
  | _ => 0
  end.

Definition timing_evidence (e : evidence) : bool :=
  match e with
  | EvTimingVariance _ | EvCpuCount _ | EvFixedFreq _ _ => true
  | _ => false
  end.

(** The score a checker accumulates from its evidence [m]:
    [score = 0.0], then [score += wt(e)] for each piece of evidence [e] in
    the order it was appended. *)
Definition evidence_sum (wt : evidence -> Q) (m : list evidence) : Q :=
  fold_left (fun score e => score + wt e) m 0.

(** Timing data of a guest with all three anomalies. *)
Definition timing_all : value :=
  VDict [("variance", VNum 4); ("avg_time", VNum 1); ("min_time", VNum 1);
         ("max_time", VNum 4); ("odd_cpu_count", VBool true); ("cpu_count", VNum 3);
         ("cpu_freq_current", VNum 2400); ("cpu_freq_min", VNum 2400);
         ("cpu_freq_max", VNum 2400)].

(** What a metric anomaly of [analyze_patterns] carries: an average above
    90, reported for histories of five entries or more. *)
Definition metric_anomaly_ok (t : nat) (x : anomaly) : Prop :=
  match x with
  | HighCPU avg | HighMemory avg => (5 <= t)%nat /\ 90 < avg
  | _ => False
  end.

(** The bounds on the values the anomalies of [analyze_patterns] carry,
    for a history of [t] entries. *)
Definition anomaly_ok (t : nat) (x : anomaly) : Prop :=
  match x with
  | ConsistentVMHigh count percentage => (count <= t)%nat /\ 80 < percentage <= 100
  | HighCPU avg | HighMemory avg => (5 <= t)%nat /\ 90 < avg
  | _ => True
  end.

(** Two entries with a VM confidence of 0.9. *)
Definition vm_high_history : analyzer :=
  mk_analyzer [VDict [("timestamp", VStr "t0"); ("vm_detected", VBool true);
                      ("vm_confidence", VNum (9#10))];
               VDict [("timestamp", VStr "t1"); ("vm_detected", VBool true);
                      ("vm_confidence", VNum (9#10))]] 100.

(** A number in [0, 1]. *)
Definition unit_num (v : value) : Prop := exists q, v = VNum q /\ 0 <= q <= 1.

(** A result with the VM detected at confidence 0.9, and its history
    entry. *)
Definition vm_result : result :=
  mk_result true (9#10) [] false 0 [] false 0 [] (VDict []).

Definition vm_entry (ts : string) : value :=
  VDict [("timestamp", VStr ts); ("vm_detected", VBool true); ("vm_confidence", VNum (9#10));
         ("remote_access_detected", VBool false); ("remote_access_confidence", VNum 0);
         ("screen_share_detected", VBool false); ("screen_share_confidence", VNum 0);
         ("metrics", VDict [])].

Definition mixed_history : analyzer :=
  mk_analyzer [clean_entry "t0"; vm_entry "t1"; vm_entry "t2"] 100.

(** ** [collector.get_processes] *)

(** A process as [psutil.process_iter(['name', 'cmdline'])] reports it:
    [proc.info['name']] and [proc.info['cmdline']] ([None] when access is
    denied). *)
Record proc_info : Type := mk_proc_info {
  info_name : value;
  info_cmdline : value
}.

(** [' '.join(v)] *)
Definition join_space (v : value) : Res string :=
  items <- py_iter v ;;
  ss <- map_res (fun x => match x with VStr s => Ok s | _ => Exc TypeError end) items ;;
  Ok (String.concat " " ss).

(** [any(keyword.lower() in cmdline for keyword in browser_keywords)] *)
Fixpoint any_keyword (kws : list value) (cmdline : string) : Res bool :=
  match kws with
  | [] => Ok false
  | k :: ks =>
      kl <- py_lower k ;;
      if substr kl cmdline then Ok true else any_keyword ks cmdline
  end.

(** [get_processes] once the signature file has been read into
    [suspicious_processes], [browser_processes] (sets, kept as lists) and
    [browser_keywords]; [procs] is the first [process_iter] (name and
    command line), [all_names] the names of the fallback [process_iter].
    Only [NoSuchProcess] and [AccessDenied] are caught in the loops, and
    reading [proc.info] raises neither, so every other error propagates. *)
Definition get_processes_from (suspicious_processes browser_processes : list value)
    (browser_keywords : value) (procs : list proc_info) (all_names : list value)
    : Res (list string) :=
  match suspicious_processes, browser_processes with
  | [], [] =>
      py_for all_names [] (fun processes name =>
        n <- py_lower name ;; Ok (processes ++ [n]))
  | _, _ =>
      py_for procs [] (fun found_processes proc =>
        proc_name <- py_lower (info_name proc) ;;
        if existsb (py_eq (VStr proc_name)) suspicious_processes
        then Ok (found_processes ++ [proc_name])
        else if existsb (py_eq (VStr proc_name)) browser_processes then
          cl <- join_space (info_cmdline proc) ;;
          let cmdline := lower cl in
          kws <- py_iter browser_keywords ;;
          b <- any_keyword kws cmdline ;;
          if b then Ok (found_processes ++ [String.append proc_name "_screenshare"])
          else Ok (found_processes ++ [proc_name])
        else Ok found_processes)
  end.

(** A Chrome process in a meeting, a VirtualBox service and a shell. *)
Definition sample_procs : list proc_info :=
  [mk_proc_info (VStr "Chrome") (VList [VStr "chrome"; VStr "--url=https://meet.google.com/x"]);
   mk_proc_info (VStr "VBoxService") (VList [VStr "VBoxService"]);
   mk_proc_info (VStr "bash") VNull].

(** ** [format_report] *)

Fixpoint str_repeat (n : nat) (s : string) : string :=
  match n with
  | O => EmptyString
  | S n' => String.append s (str_repeat n' s)
  end.

Definition nl : string := String (ascii_of_nat 10) EmptyString.

Section Report.

(** [f"{x:.2%}"] and the text of an evidence entry (the f-strings of the
    checkers); the properties below hold for any rendering. *)
Context (pct : Q -> string) (match_text : evidence -> string).

(** The lines [format_report] appends for one category. *)
Definition report_category (detected : bool) (alert ok : string) (conf : Q)
    (ms : list evidence) : list string :=
  if detected then
    [String.append nl alert; String.append "Confidence: " (pct conf); "Evidence:"] ++
    map (fun m => String.append "  - " (match_text m)) ms
  else [String.append nl (String.append ok (String.append (pct conf) ")"))].

(** The list [lines] built by [format_report]. *)
Definition format_report_lines (r : result) : list string :=
  [str_repeat 60 "="; "VM & Remote Access Detection Report"; str_repeat 60 "="] ++
  report_category (vm_detected r) "[ALERT] Virtual Machine Detected!"
    "[OK] No VM detected (confidence: " (vm_confidence r) (vm_matches r) ++
  report_category (remote_access_detected r) "[ALERT] Remote Access Detected!"
    "[OK] No remote access detected (confidence: " (remote_access_confidence r)
    (remote_access_matches r) ++
  report_category (screen_share_detected r) "[ALERT] Screen Sharing Detected!"
    "[OK] No screen sharing detected (confidence: " (screen_share_confidence r)
    (screen_share_matches r) ++
  [String.append nl (str_repeat 60 "=")].

(** [format_report]: [\n.join(lines)] *)
Definition format_report (r : result) : string := String.concat nl (format_report_lines r).

End Report.

(** A line of the report that lists one piece of evidence. *)
Definition is_bullet (l : string) : bool := startswith l "  - ".

(** ** Concrete inputs of the category checks *)

(** A snapshot with two virtual GPUs (ten GPU keyword hits), an SSH
    session and a browser in a meeting. *)
Definition snap_two_vm_gpus : value :=
  VDict [("gpu", VDict [("devices", VList [VStr "VMware SVGA II (VirtualBox vbox qxl)";
                                           VStr "VMware SVGA II (VirtualBox vbox qxl)"])]);
         ("session", VDict [("ssh_connection", VBool true)]);
         ("browser_connections", VDict [("active_meeting_browsers", VList [VStr "chrome"])])].

(** Thresholds of a signature file: 0.4 for VM, 0 for remote access and
    none for screen sharing. *)
Definition c2_thresholds : list (string * value) :=
  [("vm_confidence", VNum (2#5)); ("remote_confidence", VNum 0)].

Definition c2_signatures : value :=
  VDict [("vm_indicators", VDict [("bios_keywords", VList [VStr "virtualbox"])]);
         ("thresholds", VDict c2_thresholds)].

Definition c2_detector : detector :=
  mk_detector c2_signatures (VDict []) (VDict c2_thresholds).

(** ** Python's [min] on floats *)

From Stdlib Require Floats.

Module PyFloat.
Import Floats.

(** [min(x, y)] on two floats: [y] when [y < x], [x] otherwise (so [x]
    whenever one of them is NaN). *)
Definition py_min_float (x y : float) : float := if PrimFloat.ltb y x then y else x.

End PyFloat.

(** * Properties *)

From Stdlib Require Import Lqa.

(** ** The exception monad *)

Lemma res_bind_ok {A B} (m : Res A) (k : A -> Res B) r :
  res_bind m k = Ok r -> exists a, m = Ok a /\ k a = Ok r.
Proof. destruct m; simpl; [eauto | discriminate]. Qed.

Lemma res_bind_exc {A B} (m : Res A) (k : A -> Res B) e :
  m = Exc e -> res_bind m k = Exc e.
Proof. intros ->; reflexivity. Qed.

(** Peel the binds off a hypothesis [H : m >>= k = Ok r]. *)
Ltac inv_bind H :=
  repeat (lazymatch type of H with res_bind _ _ = Ok _ => idtac end;
          apply res_bind_ok in H;
          let a := fresh "a" in
          let Ha := fresh "Ha" in
          destruct H as [a [Ha H]];
          let T := type of a in
          let T' := eval hnf in T in
          lazymatch T' with
          | prod _ _ => destruct a
          | _ => idtac
          end;
          cbv beta iota zeta in H).

Lemma py_for_inv {A B} (P : B -> Prop) (l : list A) (acc0 : B) body r :
  P acc0 ->
  (forall a x a', P a -> body a x = Ok a' -> P a') ->
  py_for l acc0 body = Ok r -> P r.
Proof.
  revert acc0; induction l as [|x l IH]; simpl; intros acc0 H0 Hb H.
  - injection H as <-; exact H0.
  - apply res_bind_ok in H as [a' [H1 H2]].
    eapply IH; [eapply Hb; eauto | exact Hb | exact H2].
Qed.

Lemma py_for_nil {A B} (acc0 : B) (body : B -> A -> Res B) :
  py_for [] acc0 body = Ok acc0.
Proof. reflexivity. Qed.

(** ** Thresholds *)

Lemma getk_dict d k dflt v :
  getk (VDict d) k dflt = Ok v ->
  v = match assoc k d with Some w => w | None => dflt end.
Proof. unfold getk; simpl; congruence. Qed.

Lemma threshold_compare d key dflt score v b :
  getk (VDict d) key (VNum dflt) = Ok v ->
  py_ge (VNum score) v = Ok b ->
  match assoc key d with
  | None => b = Qle_bool dflt score
  | Some w => exists t, to_num w = Some t /\ b = Qle_bool t score
  end.
Proof.
  intros Hg Hge; apply getk_dict in Hg; subst v.
  unfold py_ge, num_exc in Hge; simpl in Hge.
  destruct (assoc key d) as [w|]; simpl in Hge.
  - destruct (to_num w) as [t|]; simpl in Hge; [|discriminate].
    injection Hge as <-; eauto.
  - injection Hge as <-; reflexivity.
Qed.

(** [analyze] returns a result only when the three category detectors and
    the threshold comparisons all succeed; it then reports their scores. *)
Lemma analyze_ok_inv py_repr on_windows self sd r :
  analyze py_repr on_windows self sd = Ok r ->
  exists vm_m remote_m screen_m vt rt st,
    detect_vm py_repr on_windows self sd = Ok (vm_confidence r, vm_m) /\
    detect_remote_access py_repr self sd = Ok (remote_access_confidence r, remote_m) /\
    detect_screen_share self sd = Ok (screen_share_confidence r, screen_m) /\
    getk (thresholds self) "vm_confidence" (VNum (1#2)) = Ok vt /\
    getk (thresholds self) "remote_confidence" (VNum (2#5)) = Ok rt /\
    getk (thresholds self) "screen_share_confidence" (VNum (3#10)) = Ok st /\
    py_ge (VNum (vm_confidence r)) vt = Ok (vm_detected r) /\
    py_ge (VNum (remote_access_confidence r)) rt = Ok (remote_access_detected r) /\
    py_ge (VNum (screen_share_confidence r)) st = Ok (screen_share_detected r).
Proof.
  unfold analyze; intro H; inv_bind H.
  injection H as <-; simpl.
  do 6 eexists; repeat split; eassumption.
Qed.

(** C2: each detected flag is [score >= threshold], with the threshold
    read from the signatures' [thresholds] object and the defaults 0.5
    (VM), 0.4 (remote access) and 0.3 (screen share) when it is absent. *)
Theorem C2_threshold_inclusive py_repr on_windows self sd r d :
  analyze py_repr on_windows self sd = Ok r ->
  thresholds self = VDict d ->
  match assoc "vm_confidence" d with
  | None => vm_detected r = Qle_bool (1#2) (vm_confidence r)
  | Some w => exists t, to_num w = Some t /\ vm_detected r = Qle_bool t (vm_confidence r)
  end /\
  match assoc "remote_confidence" d with
  | None => remote_access_detected r = Qle_bool (2#5) (remote_access_confidence r)
  | Some w => exists t, to_num w = Some t /\
                remote_access_detected r = Qle_bool t (remote_access_confidence r)
  end /\
  match assoc "screen_share_confidence" d with
  | None => screen_share_detected r = Qle_bool (3#10) (screen_share_confidence r)
  | Some w => exists t, to_num w = Some t /\
                screen_share_detected r = Qle_bool t (screen_share_confidence r)
  end.
Proof.
  intros H Hd.
  destruct (analyze_ok_inv _ _ _ _ _ H)
    as (vm_m & remote_m & screen_m & vt & rt & st & _ & _ & _ & Hv & Hr & Hs & Gv & Gr & Gs).
  rewrite Hd in Hv, Hr, Hs.
  repeat split; eapply threshold_compare; eassumption.
Qed.

(** C3 (as the code behaves): no failure recovery in [analyze]; it yields a
    DetectionResult only when all three category detectors complete, so an
    exception raised by any checker propagates out of it. *)
Theorem C3_analyze_needs_all_checkers py_repr on_windows self sd r :
  analyze py_repr on_windows self sd = Ok r ->
  (exists m, detect_vm py_repr on_windows self sd = Ok (vm_confidence r, m)) /\
  (exists m, detect_remote_access py_repr self sd = Ok (remote_access_confidence r, m)) /\
  (exists m, detect_screen_share self sd = Ok (screen_share_confidence r, m)).
Proof.
  intro H.
  destruct (analyze_ok_inv _ _ _ _ _ H)
    as (vm_m & remote_m & screen_m & vt & rt & st & Hv & Hr & Hs & _).
  repeat split; eauto.
Qed.

Lemma C3_analyze_needs_all_checkers_witness :
  analyze some_repr false default_detector (VDict []) =
    Ok (mk_result false 0 [] false 0 [] false 0 [] (VDict [])) /\
  ((exists m, detect_vm some_repr false default_detector (VDict []) = Ok (0, m)) /\
   (exists m, detect_remote_access some_repr default_detector (VDict []) = Ok (0, m)) /\
   (exists m, detect_screen_share default_detector (VDict []) = Ok (0, m))).
Proof.
  split; [reflexivity|].
  exact (C3_analyze_needs_all_checkers some_repr false default_detector (VDict [])
           (mk_result false 0 [] false 0 [] false 0 [] (VDict [])) eq_refl).
Defined.

(** C3 counterexample: a MAC address that is not a string makes
    [_check_mac_addresses] raise [AttributeError] ([mac.lower()]), and the
    whole analysis raises instead of scoring that checker 0. *)
Lemma C3_bad_mac_aborts_analysis :
  analyze some_repr false default_detector snap_bad_mac = Exc AttributeError.
Proof. reflexivity. Qed.



(** C8: with fewer than two history entries [analyze_patterns] returns
    [{'sufficient_data': False, 'message': ...}] without looking at the
    entries: no totals, averages or anomaly list. *)
Theorem C8_short_history_insufficient a :
  (length (history a) < 2)%nat ->
  analyze_patterns a = Ok Insufficient /\
  sufficient_data Insufficient = false /\ anomalies_of Insufficient = None.
Proof.
  intro H; unfold analyze_patterns.
  apply Nat.ltb_lt in H; rewrite H; auto.
Qed.

Lemma C8_short_history_insufficient_witness :
  (length (history (mk_analyzer [VNum 3] 100)) < 2)%nat /\
  (analyze_patterns (mk_analyzer [VNum 3] 100) = Ok Insufficient /\
   sufficient_data Insufficient = false /\ anomalies_of Insufficient = None).
Proof.
  split; [simpl; lia|].
  apply (C8_short_history_insufficient (mk_analyzer [VNum 3] 100)); simpl; lia.
Defined.

Lemma C2_threshold_inclusive_witness :
  init_detector (FileText (Some c2_signatures)) = Ok c2_detector /\
  exists r, analyze some_repr false c2_detector snap_vbox = Ok r /\
  thresholds c2_detector = VDict c2_thresholds /\
  vm_confidence r == 2#5 /\ vm_detected r = true /\
  remote_access_confidence r == 0 /\ remote_access_detected r = true /\
  screen_share_detected r = false /\
  (match assoc "vm_confidence" c2_thresholds with
   | None => vm_detected r = Qle_bool (1#2) (vm_confidence r)
   | Some w => exists t, to_num w = Some t /\ vm_detected r = Qle_bool t (vm_confidence r)
   end /\
   match assoc "remote_confidence" c2_thresholds with
   | None => remote_access_detected r = Qle_bool (2#5) (remote_access_confidence r)
   | Some w => exists t, to_num w = Some t /\
                 remote_access_detected r = Qle_bool t (remote_access_confidence r)
   end /\
   match assoc "screen_share_confidence" c2_thresholds with
   | None => screen_share_detected r = Qle_bool (3#10) (screen_share_confidence r)
   | Some w => exists t, to_num w = Some t /\
                 screen_share_detected r = Qle_bool t (screen_share_confidence r)
   end).
Proof.
  split; [reflexivity|].
  eexists; split; [reflexivity|]. split; [reflexivity|].
  split; [vm_compute; reflexivity|]. split; [reflexivity|].
  split; [vm_compute; reflexivity|]. split; [reflexivity|]. split; [reflexivity|].
  exact (C2_threshold_inclusive some_repr false c2_detector snap_vbox _ c2_thresholds
           eq_refl eq_refl).
Defined.

(** ** Score bounds *)

Lemma py_min_le x y : py_min x y <= y.
Proof.
  unfold py_min, qlt. destruct (Qle_bool x y) eqn:E; simpl.
  - apply Qle_bool_iff in E. lra.
  - apply Qle_refl.
Qed.

Lemma py_min_nonneg x y : 0 <= x -> 0 <= y -> 0 <= py_min x y.
Proof. unfold py_min; destruct (qlt y x); auto. Qed.

Lemma qnat_nonneg n : 0 <= qnat n.
Proof. unfold qnat. change 0 with (inject_Z 0). rewrite <- Zle_Qle. lia. Qed.

Lemma assoc_in k d v : assoc k d = Some v -> In (k, v) d.
Proof.
  induction d as [|[k' w] d IH]; simpl; [discriminate|].
  destruct (String.eqb k k') eqn:E.
  - apply String.eqb_eq in E; subst. intros [= ->]; auto.
  - intro H; right; auto.
Qed.

Lemma weight_nonneg self key dflt w q :
  weights_nonneg (weights self) = true -> 0 <= dflt ->
  weight self key dflt = Ok w -> num_exc w = Ok q -> 0 <= q.
Proof.
  unfold weight, getk, py_get, num_exc. intros WN Hd Hw Hq.
  destruct (weights self) as [| | | | |d]; try discriminate.
  injection Hw as <-. simpl in WN.
  destruct (assoc key d) as [v|] eqn:E.
  - apply assoc_in in E. rewrite forallb_forall in WN.
    specialize (WN _ E); simpl in WN.
    destruct (to_num v); [|discriminate]. injection Hq as <-.
    apply Qle_bool_iff; exact WN.
  - simpl in Hq. injection Hq as <-. exact Hd.
Qed.

Section Nonneg.

Context (py_repr : value -> string) (on_windows : bool) (self : detector).
Hypothesis WN : weights_nonneg (weights self) = true.

Definition score_nonneg (a : acc) : Prop := 0 <= fst a.

Lemma hit_nonneg a key dflt ev a' :
  0 <= dflt -> score_nonneg a -> hit self a key dflt ev = Ok a' -> score_nonneg a'.
Proof.
  destruct a as [s m]; unfold hit, score_nonneg, add_num; simpl.
  intros Hd Hs H; inv_bind H. inv_bind Ha0. injection H as <-.
  injection Ha0 as <-; simpl.
  pose proof (weight_nonneg _ _ _ _ _ WN Hd Ha Ha1). lra.
Qed.

Lemma hit_scaled_nonneg a key dflt factor ev a' :
  0 <= dflt -> 0 <= factor -> score_nonneg a ->
  hit_scaled self a key dflt factor ev = Ok a' -> score_nonneg a'.
Proof.
  destruct a as [s m]; unfold hit_scaled, score_nonneg; simpl.
  intros Hd Hf Hs H; inv_bind H. injection H as <-; simpl.
  pose proof (weight_nonneg _ _ _ _ _ WN Hd Ha Ha0).
  pose proof (Qmult_le_0_compat _ _ H Hf). lra.
Qed.

Lemma finish_nonneg a a' : score_nonneg a -> finish a = Ok a' -> score_nonneg a'.
Proof.
  unfold finish, score_nonneg; intros Hs H; injection H as <-; simpl.
  apply py_min_nonneg; [exact Hs | lra].
Qed.

Lemma finish_le1 a a' : finish a = Ok a' -> fst a' <= 1.
Proof. unfold finish; intro H; injection H as <-; apply py_min_le. Qed.

Ltac nn_step :=
  match goal with
  | H : res_bind _ _ = Ok _ |- _ => inv_bind H
  | H : (if ?b then _ else _) = Ok _ |- _ => destruct b
  | H : Ok _ = Ok _ |- _ => injection H; clear H; intros; subst
  | H : hit self ?a ?k ?d ?e = Ok ?a', Hs : score_nonneg ?a |- _ =>
      let Hn := fresh "Hn" in
      pose proof (hit_nonneg a k d e a' ltac:(lra) Hs H) as Hn; clear H
  | H : hit_scaled self ?a ?k ?d ?f ?e = Ok ?a', Hs : score_nonneg ?a |- _ =>
      let Hn := fresh "Hn" in
      pose proof (hit_scaled_nonneg a k d f e a' ltac:(lra) ltac:(lra) Hs H) as Hn;
      clear H
  end.

Ltac nn := repeat nn_step; try assumption.

Ltac loop_inv :=
  match goal with
  | Hf : py_for _ _ _ = Ok _ |- _ =>
      refine (py_for_inv score_nonneg _ _ _ _ _ _ Hf); clear Hf;
      [try (unfold score_nonneg; simpl; lra) | ]
  end.

Lemma check_bios_nonneg bios a :
  check_bios_keywords py_repr self bios = Ok a -> score_nonneg a.
Proof.
  unfold check_bios_keywords; intro H; inv_bind H.
  eapply finish_nonneg; [|exact H]. loop_inv.
  intros [s m] x a' Hs Hb; inv_bind Hb; nn.
Qed.

Lemma check_mac_nonneg macs a :
  check_mac_addresses self macs = Ok a -> score_nonneg a.
Proof.
  unfold check_mac_addresses; intro H; inv_bind H.
  eapply finish_nonneg; [|exact H]. loop_inv.
  intros [s m] x a' Hs Hb; inv_bind Hb. loop_inv; [exact Hs|].
  intros [s' m'] y a'' Hs' Hb'; inv_bind Hb'; nn.
Qed.

Lemma check_processes_nonneg ps pl a :
  check_processes self ps pl = Ok a -> score_nonneg a.
Proof.
  unfold check_processes; intro H; inv_bind H.
  eapply finish_nonneg; [|exact H]. loop_inv.
  intros [s m] x a' Hs Hb; inv_bind Hb; nn.
Qed.

Lemma check_ports_nonneg ports a :
  check_ports self ports = Ok a -> score_nonneg a.
Proof.
  unfold check_ports; intro H; inv_bind H.
  eapply finish_nonneg; [|exact H]. loop_inv.
  intros [s m] x a' Hs Hb; inv_bind Hb; nn.
Qed.

Lemma check_session_nonneg session a :
  check_session py_repr self session = Ok a -> score_nonneg a.
Proof.
  unfold check_session; intro H; inv_bind H.
  eapply finish_nonneg; [|exact H].
  match goal with
  | Hf : py_for _ _ _ = Ok ?p |- _ =>
      assert (score_nonneg p)
        by (loop_inv; intros [s m] x a' Hs Hb; inv_bind Hb;
            cbn [py_for vm_gpu_keywords] in Hb; nn)
  end.
  nn.
Qed.

Lemma check_gpu_nonneg gpu a :
  check_gpu_artifacts py_repr on_windows self gpu = Ok a -> score_nonneg a.
Proof.
  unfold check_gpu_artifacts; intro H; inv_bind H.
  eapply finish_nonneg; [|exact H].
  match goal with
  | Hf : py_for _ _ _ = Ok ?p |- _ =>
      assert (score_nonneg p)
        by (loop_inv; intros [s m] x a' Hs Hb; inv_bind Hb;
            cbn [py_for vm_gpu_keywords] in Hb; nn)
  end.
  nn.
Qed.

Lemma check_timing_nonneg timing a :
  check_timing_anomalies self timing = Ok a -> score_nonneg a.
Proof.
  unfold check_timing_anomalies; intro H.
  assert (score_nonneg ((0, []) : acc)) by (unfold score_nonneg; simpl; lra).
  inv_bind H.
  eapply finish_nonneg; [|exact H].
  nn.
Qed.

Ltac checker_facts :=
  repeat match goal with
  | Hc : check_bios_keywords _ _ _ = Ok _ |- _ => apply check_bios_nonneg in Hc
  | Hc : check_mac_addresses _ _ = Ok _ |- _ => apply check_mac_nonneg in Hc
  | Hc : check_processes _ _ _ = Ok _ |- _ => apply check_processes_nonneg in Hc
  | Hc : check_ports _ _ = Ok _ |- _ => apply check_ports_nonneg in Hc
  | Hc : check_session _ _ _ = Ok _ |- _ => apply check_session_nonneg in Hc
  | Hc : check_gpu_artifacts _ _ _ _ = Ok _ |- _ => apply check_gpu_nonneg in Hc
  | Hc : check_timing_anomalies _ _ = Ok _ |- _ => apply check_timing_nonneg in Hc
  end;
  unfold score_nonneg in *; simpl in *.

Lemma detect_vm_nonneg sd a :
  detect_vm py_repr on_windows self sd = Ok a -> 0 <= fst a.
Proof.
  unfold detect_vm; intro H; inv_bind H.
  destruct (qlt (1#5) _); inv_bind H; injection H as <-; checker_facts;
    apply py_min_nonneg; lra.
Qed.

Lemma detect_remote_nonneg sd a :
  detect_remote_access py_repr self sd = Ok a -> 0 <= fst a.
Proof.
  unfold detect_remote_access; intro H; inv_bind H.
  injection H as <-; checker_facts. apply py_min_nonneg; lra.
Qed.

Lemma tier_term_nonneg c n cap :
  0 <= c -> 0 <= cap -> 0 <= py_min (c * qnat n) cap.
Proof.
  intros Hc Hcap. apply py_min_nonneg; [|exact Hcap].
  apply Qmult_le_0_compat; [exact Hc | apply qnat_nonneg].
Qed.

Lemma meeting_tiers_nonneg score matches amb dd cc fb fbs a :
  meeting_tiers score matches amb dd cc fb fbs = Ok a -> 0 <= score -> 0 <= fst a.
Proof.
  unfold meeting_tiers; intros Ht Hs.
  destruct (truthy amb).
  - inv_bind Ht; injection Ht as <-; simpl; lra.
  - destruct fbs as [|b rest]; [destruct fb as [|b rest]|];
      injection Ht as <-; cbn [fst]; try lra;
      match goal with
      | |- 0 <= _ + py_min (?c * qnat ?n) ?cap =>
          pose proof (tier_term_nonneg c n cap ltac:(lra) ltac:(lra)); lra
      end.
Qed.

Lemma detect_screen_nonneg sd a :
  detect_screen_share self sd = Ok a -> 0 <= fst a.
Proof.
  unfold detect_screen_share; intro H; inv_bind H.
  change (score_nonneg a). eapply finish_nonneg; [|exact H].
  checker_facts.
  match goal with
  | Ht : meeting_tiers _ _ _ _ _ _ _ = Ok _ |- _ =>
      apply meeting_tiers_nonneg in Ht; [exact Ht | assumption]
  end.
Qed.

End Nonneg.

Section Upper.

Context (py_repr : value -> string) (on_windows : bool) (self : detector).

Lemma detect_vm_le1 sd a :
  detect_vm py_repr on_windows self sd = Ok a -> fst a <= 1.
Proof.
  unfold detect_vm; intro H; inv_bind H.
  destruct (qlt (1#5) _); inv_bind H; injection H as <-; apply py_min_le.
Qed.

Lemma detect_remote_le1 sd a :
  detect_remote_access py_repr self sd = Ok a -> fst a <= 1.
Proof.
  unfold detect_remote_access; intro H; inv_bind H.
  injection H as <-; apply py_min_le.
Qed.

Lemma detect_screen_le1 sd a :
  detect_screen_share self sd = Ok a -> fst a <= 1.
Proof.
  unfold detect_screen_share; intro H; inv_bind H. exact (finish_le1 _ _ H).
Qed.

End Upper.

(** C1 (as the code behaves): for finite weights (the model's numbers),
    every category confidence returned by [analyze] is at most 1.0 (each
    checker and each category sum is passed through [min(., 1.0)]); it is
    at least 0 whenever the configured weights are non-negative, there
    being no lower clamp. *)
Theorem C1_confidence_bounds py_repr on_windows self sd r :
  analyze py_repr on_windows self sd = Ok r ->
  vm_confidence r <= 1 /\ remote_access_confidence r <= 1 /\
  screen_share_confidence r <= 1 /\
  (weights_nonneg (weights self) = true ->
   0 <= vm_confidence r /\ 0 <= remote_access_confidence r /\
   0 <= screen_share_confidence r).
Proof.
  intro H.
  destruct (analyze_ok_inv _ _ _ _ _ H)
    as (vm_m & remote_m & screen_m & vt & rt & st & Hv & Hr & Hs & _).
  split; [exact (detect_vm_le1 _ _ _ _ _ Hv)|].
  split; [exact (detect_remote_le1 _ _ _ _ Hr)|].
  split; [exact (detect_screen_le1 _ _ _ Hs)|].
  intro WN. split; [|split].
  - exact (detect_vm_nonneg _ _ _ WN _ _ Hv).
  - exact (detect_remote_nonneg _ _ WN _ _ Hr).
  - exact (detect_screen_nonneg _ WN _ _ Hs).
Qed.

Lemma C1_confidence_bounds_witness :
  (exists a, check_gpu_artifacts some_repr false default_detector
               (VDict [("devices", VList [VStr "VMware SVGA II (VirtualBox vbox qxl)";
                                          VStr "VMware SVGA II (VirtualBox vbox qxl)"])]) = Ok a /\
             length (snd a) = 10%nat /\ fst a == 1) /\
  exists r, analyze some_repr false default_detector snap_two_vm_gpus = Ok r /\
    vm_confidence r == 1 /\ remote_access_confidence r == 3#10 /\
    screen_share_confidence r == 1#4 /\
    (vm_confidence r <= 1 /\ remote_access_confidence r <= 1 /\
     screen_share_confidence r <= 1 /\
     (weights_nonneg (weights default_detector) = true ->
      0 <= vm_confidence r /\ 0 <= remote_access_confidence r /\
      0 <= screen_share_confidence r)).
Proof.
  split.
  - eexists; split; [reflexivity|]. split; [reflexivity|]. vm_compute. reflexivity.
  - eexists; split; [reflexivity|].
    split; [vm_compute; reflexivity|]. split; [vm_compute; reflexivity|].
    split; [vm_compute; reflexivity|].
    exact (C1_confidence_bounds some_repr false default_detector snap_two_vm_gpus _ eq_refl).
Defined.

(** C1 counterexample: the signatures' weights are used as they are; a
    negative [bios_match] weight gives a negative VM confidence. *)
Lemma C1_negative_weight_negative_confidence :
  init_detector (FileText (Some neg_weight_doc)) = Ok neg_weight_detector /\
  exists r, analyze some_repr false neg_weight_detector snap_vbox = Ok r /\
            vm_confidence r < 0.
Proof.
  split; [reflexivity|].
  eexists; split; [reflexivity|]. vm_compute. reflexivity.
Qed.

Module PyFloatClamp.
Import Floats.

(** Outside the model: with a NaN weight the running score [0.0 + nan] is
    NaN and [min(score, 1.0)] keeps it, and so do weights [inf] and [-inf]
    added to one score; the bound of C1 is for finite weights. *)
Lemma clamp_keeps_nan :
  PrimFloat.is_nan (PyFloat.py_min_float (0 + nan) 1) = true /\
  PrimFloat.is_nan (PyFloat.py_min_float (0 + infinity + neg_infinity) 1) = true.
Proof. split; reflexivity. Qed.

End PyFloatClamp.

(** ** The built-in default signatures *)

Lemma py_min_le_l x y : py_min x y <= x.
Proof.
  unfold py_min, qlt. destruct (Qle_bool x y) eqn:E; simpl.
  - apply Qle_refl.
  - assert (~ x <= y) by (rewrite <- Qle_bool_iff; congruence). lra.
Qed.

Lemma init_default_detector :
  init_detector FileMissing = Ok default_detector /\
  init_detector (FileText None) = Ok default_detector.
Proof. split; reflexivity. Qed.

Lemma check_processes_nil self pl a :
  check_processes self (VList []) pl = Ok a -> fst a = 0.
Proof.
  unfold check_processes; intro H; inv_bind H.
  simpl in Ha0; injection Ha0 as <-. simpl in Ha1; injection Ha1 as <- <-.
  injection H as <-; reflexivity.
Qed.

Lemma scan_browsers_nil procs fb fbs :
  scan_browsers (VList []) procs = Ok (fb, fbs) -> fb = [] /\ fbs = [].
Proof.
  unfold scan_browsers; intro H.
  assert (Hp : (fun p : list string * list string => p = ([], [])) (fb, fbs)).
  { refine (py_for_inv (fun p : list string * list string => p = ([], [])) _ _ _ _ eq_refl _ H).
    intros [b1 b2] x a' Ha Hb. injection Ha as -> ->. simpl in Hb. injection Hb as <-. reflexivity. }
  simpl in Hp; injection Hp as -> ->; auto.
Qed.

Section Defaults.

Context (py_repr : value -> string) (on_windows : bool).

Ltac default_steps :=
  repeat match goal with
  | Hx : sig_list default_detector _ _ = Ok _ |- _ =>
      vm_compute in Hx; injection Hx as <-
  | Hx : getk (signatures default_detector) _ _ = Ok _ |- _ =>
      vm_compute in Hx; injection Hx as <-
  | Hx : getk (VDict _) _ _ = Ok _ |- _ =>
      vm_compute in Hx; injection Hx as <-
  | Hx : py_iter (VList []) = Ok _ |- _ => simpl in Hx; injection Hx as <-
  | Hx : py_for [] _ _ = Ok _ |- _ => rewrite py_for_nil in Hx; injection Hx as <- <-
  | Hx : finish (_, _) = Ok (_, _) |- _ => unfold finish in Hx; injection Hx as <- <-
  | Hx : check_processes _ (VList []) _ = Ok _ |- _ =>
      apply check_processes_nil in Hx; simpl in Hx; subst
  end.

Lemma default_session_le s a :
  check_session py_repr default_detector s = Ok a -> fst a <= 3#10.
Proof.
  unfold check_session; intro H; inv_bind H; default_steps.
  match goal with Hx : (if truthy ?c then _ else _) = Ok _ |- _ =>
    destruct (truthy c); [vm_compute in Hx|]; injection Hx as <- <- end;
  unfold finish in H; injection H as <-; simpl.
  - match goal with |- py_min ?x 1 <= _ => pose proof (py_min_le_l x 1) end. lra.
  - pose proof (py_min_le_l 0 1). lra.
Qed.

Lemma default_remote_le sd a :
  detect_remote_access py_repr default_detector sd = Ok a -> fst a <= 3#10.
Proof.
  unfold detect_remote_access; intro H; inv_bind H; default_steps.
  unfold check_ports in Ha4; inv_bind Ha4; default_steps.
  apply default_session_le in Ha6; simpl in Ha6.
  injection H as <-; cbn [fst].
  eapply Qle_trans; [apply py_min_le_l|].
  assert (Hm : py_min 0 1 = 0) by reflexivity. rewrite Hm. lra.
Qed.

Lemma meeting_tiers_no_browsers score m amb dd cc a :
  meeting_tiers score m amb dd cc [] [] = Ok a -> fst a <= score + (1#4).
Proof.
  unfold meeting_tiers; intro H. destruct (truthy amb).
  - inv_bind H. injection H as <-. cbn [fst]. lra.
  - injection H as <-. cbn [fst]. lra.
Qed.

Lemma default_screen_le sd a :
  detect_screen_share default_detector sd = Ok a -> fst a <= 1#4.
Proof.
  unfold detect_screen_share; intro H; inv_bind H; default_steps.
  match goal with Hx : scan_browsers _ _ = Ok _ |- _ =>
    apply scan_browsers_nil in Hx as [-> ->] end.
  match goal with Hx : meeting_tiers _ _ _ _ _ _ _ = Ok _ |- _ =>
    apply meeting_tiers_no_browsers in Hx; cbn [fst] in Hx end.
  unfold finish in H; injection H as <-; cbn [fst].
  eapply Qle_trans; [apply py_min_le_l|].
  lra.
Qed.

End Defaults.

Lemma init_default_is_default_detector src self :
  init_detector src = Ok self -> signatures self = get_default_signatures ->
  self = default_detector.
Proof.
  unfold init_detector; intros H Hs; inv_bind H.
  injection H as <-; simpl in Hs; subst.
  vm_compute in Ha0; injection Ha0 as <-.
  vm_compute in Ha1; injection Ha1 as <-. reflexivity.
Qed.

(** C5 (corrected): with the built-in default signature set in effect,
    [analyze] never reports remote access or screen sharing: the remote
    confidence is at most 0.3 (the SSH flag alone) and the screen-share
    confidence at most 0.25 (the active-meeting heuristic alone). *)
Theorem C5_default_signatures_no_remote_or_screen py_repr on_windows src self sd r :
  init_detector src = Ok self -> signatures self = get_default_signatures ->
  analyze py_repr on_windows self sd = Ok r ->
  remote_access_detected r = false /\ remote_access_confidence r <= 3#10 /\
  screen_share_detected r = false /\ screen_share_confidence r <= 1#4.
Proof.
  intros Hi Hs H.
  pose proof (init_default_is_default_detector _ _ Hi Hs); subst self.
  destruct (analyze_ok_inv _ _ _ _ _ H)
    as (vm_m & remote_m & screen_m & vt & rt & st & _ & Hr & Hsc & _ & Hrt & Hst & _ & Hrd & Hsd).
  apply default_remote_le in Hr; apply default_screen_le in Hsc; cbn [fst] in Hr, Hsc.
  pose proof (threshold_compare [] _ _ _ _ _ Hrt Hrd) as Er.
  pose proof (threshold_compare [] _ _ _ _ _ Hst Hsd) as Es.
  simpl in Er, Es.
  repeat split; try assumption.
  - rewrite Er. destruct (Qle_bool (2#5) _) eqn:E; [|reflexivity].
    apply Qle_bool_iff in E. lra.
  - rewrite Es. destruct (Qle_bool (3#10) _) eqn:E; [|reflexivity].
    apply Qle_bool_iff in E. lra.
Qed.

Lemma C5_default_signatures_no_remote_or_screen_witness :
  init_detector FileMissing = Ok default_detector /\
  signatures default_detector = get_default_signatures /\
  exists r, analyze some_repr false default_detector snap_default_hits = Ok r /\
    remote_access_matches r = [EvSsh] /\ remote_access_confidence r == 3#10 /\
    screen_share_matches r = [EvMeeting (VStr "chrome") (VNum 0)] /\
    screen_share_confidence r == 1#4 /\
    (remote_access_detected r = false /\ remote_access_confidence r <= 3#10 /\
     screen_share_detected r = false /\ screen_share_confidence r <= 1#4).
Proof.
  split; [reflexivity|]. split; [reflexivity|].
  eexists; split; [reflexivity|].
  split; [reflexivity|]. split; [vm_compute; reflexivity|].
  split; [reflexivity|]. split; [vm_compute; reflexivity|].
  exact (C5_default_signatures_no_remote_or_screen some_repr false FileMissing
           default_detector snap_default_hits _ eq_refl eq_refl eq_refl).
Defined.

(** C5 counterexample: the default signatures (from a missing signature
    file) still detect a VM from the hard-coded GPU keywords, and score
    0.3 for remote access and 0.25 for screen sharing. *)
Lemma C5_defaults_still_detect :
  init_detector FileMissing = Ok default_detector /\
  exists r, analyze some_repr false default_detector snap_default_hits = Ok r /\
    vm_detected r = true /\ vm_confidence r == 3#4 /\
    remote_access_confidence r == 3#10 /\ screen_share_confidence r == 1#4.
Proof.
  split; [reflexivity|].
  eexists; split; [reflexivity|]. vm_compute. repeat split; reflexivity.
Qed.

(** ** Sudden transitions *)

Lemma count_sudden_app key l1 l2 :
  count_sudden key (l1 ++ l2) = (count_sudden key l1 + count_sudden key l2)%nat.
Proof. unfold count_sudden. rewrite filter_app, length_app. reflexivity. Qed.

Lemma sudden_ok p c key ck mk s :
  sudden p c key ck mk = Ok s ->
  exists ts conf, s = if negb (flag p key) && flag c key then [mk ts conf] else [].
Proof.
  unfold sudden, flag; intro H; inv_bind H.
  match goal with Hp : getk p _ _ = Ok ?v |- _ => rewrite Hp; destruct (truthy v) end;
    simpl.
  - injection H as <-. exists VNull, VNull. reflexivity.
  - inv_bind H.
    match goal with Hc : getk c _ _ = Ok ?v |- _ => rewrite Hc; destruct (truthy v) end.
    + inv_bind H. injection H as <-. eauto.
    + injection H as <-. exists VNull, VNull. reflexivity.
Qed.

Lemma metric_anomalies_not_sudden h s key :
  metric_anomalies h = Ok s -> count_sudden key s = 0%nat.
Proof.
  unfold metric_anomalies; intro H.
  destruct (5 <=? length h)%nat; [|injection H as <-; reflexivity].
  inv_bind H. injection H as <-. rewrite count_sudden_app.
  assert (Hc : forall (l : list value) (f : Q -> anomaly) r,
             (forall q, sudden_category (f q) = None) ->
             match l with
             | [] => Ok []
             | _ => avg <- py_avg l ;; Ok (if qlt 90 avg then [f avg] else [])
             end = Ok r -> count_sudden key r = 0%nat).
  { intros l f r Hf Hr. destruct l as [|x l].
    - injection Hr as <-; reflexivity.
    - inv_bind Hr. injection Hr as <-. destruct (qlt 90 _); [|reflexivity].
      unfold count_sudden; simpl; rewrite Hf; reflexivity. }
  rewrite (Hc _ HighCPU _ (fun _ => eq_refl) Ha2), (Hc _ HighMemory _ (fun _ => eq_refl) Ha3).
  reflexivity.
Qed.

Lemma last_two_spec h :
  (2 <= length h)%nat ->
  last_two h = (nth (length h - 2) h VNull, nth (length h - 1) h VNull).
Proof.
  intro Hl. unfold last_two.
  destruct (rev h) as [|r [|p t]] eqn:E.
  - apply (f_equal (@length value)) in E. rewrite length_rev in E. simpl in E. lia.
  - apply (f_equal (@length value)) in E. rewrite length_rev in E. simpl in E. lia.
  - assert (Eh : h = rev t ++ [p; r]).
    { rewrite <- (rev_involutive h), E. simpl. rewrite <- app_assoc. reflexivity. }
    rewrite Eh, length_app. simpl length.
    rewrite !app_nth2 by lia.
    replace (length (rev t) + 2 - 2 - length (rev t))%nat with 0%nat by lia.
    replace (length (rev t) + 2 - 1 - length (rev t))%nat with 1%nat by lia.
    reflexivity.
Qed.

(** C7: on a history of at least two entries, with [previous] and
    [recent] its last two entries, [analyze_patterns] emits exactly one
    sudden-transition event for a category when [previous] has the
    category's detected flag false and [recent] has it true, and none
    otherwise; each category is decided on its own flag only. *)
Theorem C7_sudden_transition_iff a rep :
  (2 <= length (history a))%nat ->
  analyze_patterns a = Ok rep ->
  let previous := nth (length (history a) - 2) (history a) VNull in
  let recent := nth (length (history a) - 1) (history a) VNull in
  exists an, anomalies_of rep = Some an /\
    forall key, In key ["vm_detected"; "remote_access_detected"; "screen_share_detected"] ->
      count_sudden key an =
        (if negb (flag previous key) && flag recent key then 1 else 0)%nat.
Proof.
  intros Hlen H previous recent.
  unfold analyze_patterns in H; cbv zeta in H.
  rewrite (proj2 (Nat.ltb_ge _ _) Hlen) in H.
  inv_bind H. rewrite (last_two_spec _ Hlen) in H. inv_bind H.
  injection H as <-. eexists; split; [reflexivity|].
  repeat match goal with Hx : sudden _ _ _ _ _ = Ok _ |- _ =>
    apply sudden_ok in Hx as (? & ? & ->) end.
  intros key Hk.
  rewrite !count_sudden_app.
  match goal with Hx : metric_anomalies _ = Ok _ |- _ =>
    rewrite (metric_anomalies_not_sudden _ _ key Hx) end.
  assert (H4 : forall (b : bool) n q, count_sudden key
                 (if b then [ConsistentVMHigh n q] else @nil anomaly) = 0%nat)
    by (intros [] n q; reflexivity).
  rewrite H4. fold previous recent.
  simpl in Hk; destruct Hk as [<-|[<-|[<-|[]]]];
    repeat match goal with |- context [flag ?e ?k] => destruct (flag e k) end;
    reflexivity.
Qed.

Lemma C7_sudden_transition_iff_witness :
  (2 <= length (history vm_turns_on))%nat /\
  analyze_patterns vm_turns_on =
    Ok (Sufficient 2 1 0 0 (0#2) (0#2) (0#2)
          [SuddenVM (VStr "t1") (VNum 0)]) /\
  let previous := nth (length (history vm_turns_on) - 2) (history vm_turns_on) VNull in
  let recent := nth (length (history vm_turns_on) - 1) (history vm_turns_on) VNull in
  exists an, anomalies_of (Sufficient 2 1 0 0 (0#2) (0#2) (0#2) [SuddenVM (VStr "t1") (VNum 0)]) = Some an /\
    forall key, In key ["vm_detected"; "remote_access_detected"; "screen_share_detected"] ->
      count_sudden key an =
        (if negb (flag previous key) && flag recent key then 1 else 0)%nat.
Proof.
  split; [simpl; lia|]. split; [reflexivity|].
  exact (C7_sudden_transition_iff vm_turns_on _ (le_n 2) eq_refl).
Defined.

(** ** Screen-share tiers *)

(** C9 (corrected): the browser tiers of [detect_screen_share] are
    exclusive and taken in priority order: the score gains exactly the
    contribution of the first applicable tier (active meeting browsers
    0.25; browsers with a meeting marker 0.25 each, capped at 0.35;
    browsers present 0.1 each, capped at 0.2) and only that tier's
    evidence is added. *)
Theorem C9_single_tier_contributes score m amb dd cc fb fbs s m' :
  meeting_tiers score m amb dd cc fb fbs = Ok (s, m') ->
  s == score + tier_contribution amb fb fbs /\
  exists added, m' = m ++ added /\ tier_evidence amb fb fbs added.
Proof.
  unfold meeting_tiers, tier_contribution, tier_evidence; intro H.
  destruct (truthy amb).
  - inv_bind H. injection H as <- <-. split; [reflexivity|].
    match goal with Hf : py_for _ m _ = Ok _ |- _ =>
      refine (py_for_inv (fun ms => exists added, ms = m ++ added /\
                Forall (fun e => exists b c, e = EvMeeting b c) added) _ _ _ _ _ _ Hf) end.
    + exists []. rewrite app_nil_r. auto.
    + intros ms x ms' (added & -> & Hf) Hb. inv_bind Hb. inv_bind Hb.
      injection Hb as <-. eexists (added ++ [EvMeeting x _]).
      rewrite app_assoc. split; [reflexivity|].
      apply Forall_app; split; [exact Hf|]. repeat constructor. eauto.
  - destruct fbs as [|f fbs].
    + destruct fb as [|b fb]; injection H as <- <-.
      * split; [lra|]. exists []. rewrite app_nil_r. auto.
      * split; [reflexivity|]. eauto.
    + injection H as <- <-. split; [reflexivity|]. eauto.
Qed.

Lemma C9_single_tier_contributes_witness :
  meeting_tiers 0 [] (VList []) (VList []) (VDict []) ["chrome"] ["chrome"; "firefox"] =
    Ok (py_min ((1#4) * qnat 2) (7#20), [EvBrowserMeeting "chrome"; EvBrowserMeeting "firefox"]) /\
  (py_min ((1#4) * qnat 2) (7#20) == 0 + tier_contribution (VList []) ["chrome"] ["chrome"; "firefox"] /\
   exists added, [EvBrowserMeeting "chrome"; EvBrowserMeeting "firefox"] = [] ++ added /\
     tier_evidence (VList []) ["chrome"] ["chrome"; "firefox"] added).
Proof.
  split; [reflexivity|].
  exact (C9_single_tier_contributes 0 [] (VList []) (VList []) (VDict []) ["chrome"]
           ["chrome"; "firefox"] _ _ eq_refl).
Defined.

(** C9 counterexample: the first tier does not carry the highest
    confidence: two browsers with a meeting marker give 0.35, and adding
    a browser in an active meeting lowers the screen-share confidence to
    0.25. *)
Lemma C9_first_tier_not_highest :
  (exists m, detect_screen_share browser_detector snap_screenshare_only = Ok (7#20, m)) /\
  (exists m, detect_screen_share browser_detector snap_meeting_and_screenshare = Ok (1#4, m)).
Proof. split; eexists; vm_compute; reflexivity. Qed.

(** ** Letter case *)

(** C10 (the part that holds): the BIOS and session checks lowercase the snapshot
    strings they match (manufacturer, product and CPU strings; the session
    name) before matching, so two snapshots whose strings agree up to
    letter case get the same result, score and evidence alike. *)
Theorem C10_snapshot_case_insensitive py_repr self :
  (forall d1 d2,
     (forall k, In k ["manufacturer"; "product"; "cpu_info"] ->
        lower (py_str py_repr (field d1 k)) = lower (py_str py_repr (field d2 k))) ->
     check_bios_keywords py_repr self (VDict d1) = check_bios_keywords py_repr self (VDict d2)) /\
  (forall s1 s2,
     lower (py_str py_repr (field s1 "session_name")) =
       lower (py_str py_repr (field s2 "session_name")) ->
     assoc "ssh_connection" s1 = assoc "ssh_connection" s2 ->
     check_session py_repr self (VDict s1) = check_session py_repr self (VDict s2)).
Proof.
  split.
  - intros d1 d2 H. unfold check_bios_keywords.
    destruct (sig_list self "vm_indicators" "bios_keywords") as [kw|e]; [|reflexivity].
    cbn [res_bind getk py_get].
    fold (field d1 "manufacturer") (field d1 "product") (field d1 "cpu_info").
    fold (field d2 "manufacturer") (field d2 "product") (field d2 "cpu_info").
    rewrite (H "manufacturer"), (H "product"), (H "cpu_info") by (simpl; tauto).
    reflexivity.
  - intros s1 s2 Hn Hs. unfold check_session.
    destruct (sig_list self "remote_indicators" "session_keywords") as [kw|e]; [|reflexivity].
    cbn [res_bind getk py_get].
    fold (field s1 "session_name") (field s2 "session_name").
    rewrite Hn, Hs. reflexivity.
Qed.

Lemma C10_snapshot_case_insensitive_witness :
  (forall k, In k ["manufacturer"; "product"; "cpu_info"] ->
     lower (py_str some_repr (field [("manufacturer", VStr "innotek GmbH");
                                     ("product", VStr "VirtualBox")] k)) =
     lower (py_str some_repr (field [("manufacturer", VStr "INNOTEK GMBH");
                                     ("product", VStr "virtualbox")] k))) /\
  check_bios_keywords some_repr (bios_kw_detector "virtualbox")
    (VDict [("manufacturer", VStr "innotek GmbH"); ("product", VStr "VirtualBox")]) =
  check_bios_keywords some_repr (bios_kw_detector "virtualbox")
    (VDict [("manufacturer", VStr "INNOTEK GMBH"); ("product", VStr "virtualbox")]) /\
  check_session some_repr default_detector
    (VDict [("session_name", VStr "RDP-Tcp#0"); ("ssh_connection", VBool true)]) =
  check_session some_repr default_detector
    (VDict [("session_name", VStr "rdp-tcp#0"); ("ssh_connection", VBool true)]).
Proof.
  assert (Hk : forall k, In k ["manufacturer"; "product"; "cpu_info"] ->
     lower (py_str some_repr (field [("manufacturer", VStr "innotek GmbH");
                                     ("product", VStr "VirtualBox")] k)) =
     lower (py_str some_repr (field [("manufacturer", VStr "INNOTEK GMBH");
                                     ("product", VStr "virtualbox")] k))).
  { intros k Hin; simpl in Hin.
    destruct Hin as [<-|[<-|[<-|[]]]]; vm_compute; reflexivity. }
  split; [exact Hk|]. split.
  - exact (proj1 (C10_snapshot_case_insensitive some_repr (bios_kw_detector "virtualbox")) _ _ Hk).
  - exact (proj2 (C10_snapshot_case_insensitive some_repr default_detector)
             [("session_name", VStr "RDP-Tcp#0"); ("ssh_connection", VBool true)]
             [("session_name", VStr "rdp-tcp#0"); ("ssh_connection", VBool true)]
             eq_refl eq_refl).
Defined.

(** C10 counterexample: signature strings are not lowercased. A BIOS
    keyword written [VirtualBox] never matches (the snapshot text it is
    searched in is lowercased), where [virtualbox] scores 0.4; a running
    process reported as [TeamViewer] does not match the signature process
    [teamviewer] (process names are compared exactly); and a signature
    process [TeamViewer] is found by the collector, which lowercases both
    the signature names and the process names, but the name it reports,
    [teamviewer], scores nothing against that same signature. *)
Lemma C10_signature_case_matters :
  (exists a, check_bios_keywords some_repr (bios_kw_detector "virtualbox") snap_vbox_bios = Ok a /\
             fst a == 2#5) /\
  (exists a, check_bios_keywords some_repr (bios_kw_detector "VirtualBox") snap_vbox_bios = Ok a /\
             fst a == 0) /\
  (exists a, detect_remote_access some_repr (remote_proc_detector "teamviewer")
               (snap_teamviewer "teamviewer") = Ok a /\ fst a == 1#4) /\
  (exists a, detect_remote_access some_repr (remote_proc_detector "teamviewer")
               (snap_teamviewer "TeamViewer") = Ok a /\ fst a == 0) /\
  get_processes_from [VStr (lower "TeamViewer")] [] (VList [])
    [mk_proc_info (VStr "TeamViewer") VNull] [] = Ok ["teamviewer"] /\
  (exists a, detect_remote_access some_repr (remote_proc_detector "TeamViewer")
               (snap_teamviewer "teamviewer") = Ok a /\ fst a == 0).
Proof.
  repeat split; try reflexivity; eexists; split; try reflexivity; vm_compute; reflexivity.
Qed.

(** ** History bound *)

Lemma keep_last_pos {A} (l : list A) m :
  (1 <= m)%Z ->
  length (keep_last l m) = Nat.min (length l) (Z.to_nat m) /\
  exists evicted, l = evicted ++ keep_last l m.
Proof.
  intro Hm. unfold keep_last, slice_from.
  replace (- m <? 0)%Z with true by (symmetry; apply Z.ltb_lt; lia).
  split.
  - rewrite length_skipn. lia.
  - eexists. symmetry. apply firstn_skipn.
Qed.

Lemma keep_last_zero {A} (l : list A) : keep_last l 0 = l.
Proof.
  unfold keep_last, slice_from. simpl.
  rewrite Z.min_l by lia. reflexivity.
Qed.

(** C6 (as the code behaves): [add_detection] appends the new entry and
    keeps [history[-max_history:]]. For [max_history >= 1] this keeps the
    [min(n + 1, max_history)] most recent entries, dropping the oldest;
    for [max_history = 0] the slice [history[-0:]] is the whole list, so
    nothing is ever evicted and the history grows without bound. *)
Theorem C6_history_bound ts r a a' :
  add_detection ts r a = Ok a' ->
  exists e, history_entry ts r = Ok e /\ max_history a' = max_history a /\
    ((1 <= max_history a)%Z ->
       length (history a') = Nat.min (length (history a) + 1) (Z.to_nat (max_history a)) /\
       exists evicted, history a ++ [e] = evicted ++ history a') /\
    (max_history a = 0%Z -> history a' = history a ++ [e]).
Proof.
  unfold add_detection; intro H; inv_bind H. injection H as <-.
  eexists; split; [eassumption|]. cbn [save_history history max_history].
  split; [reflexivity|]. split.
  - intro Hm. destruct (keep_last_pos (history a ++ [a0]) _ Hm) as [Hl He].
    rewrite Hl, length_app. split; [reflexivity|exact He].
  - intros ->. apply keep_last_zero.
Qed.

Lemma C6_history_bound_witness :
  add_detection "t0" clean_result (mk_analyzer [] 0) =
    Ok (mk_analyzer [clean_entry "t0"] 0) /\
  exists e, history_entry "t0" clean_result = Ok e /\ 0%Z = 0%Z /\
    ((1 <= 0)%Z -> length [clean_entry "t0"] = Nat.min (0 + 1) (Z.to_nat 0) /\
       exists evicted, [] ++ [e] = evicted ++ [clean_entry "t0"]) /\
    (0%Z = 0%Z -> [clean_entry "t0"] = [] ++ [e]).
Proof.
  split; [reflexivity|].
  exact (C6_history_bound "t0" clean_result (mk_analyzer [] 0) _ eq_refl).
Defined.

(** With [max_history = 0], three detections leave three entries. *)
Lemma zero_max_history_keeps_everything :
  exists a, (a1 <- add_detection "t0" clean_result (mk_analyzer [] 0) ;;
             a2 <- add_detection "t1" clean_result a1 ;;
             add_detection "t2" clean_result a2) = Ok a /\
            length (history a) = 3%nat.
Proof. eexists; split; reflexivity. Qed.

(** * Further properties of the detector and the analyzer *)

(** ** Counting loops *)

Lemma qnat_S n : qnat (S n) == qnat n + 1.
Proof. unfold qnat. rewrite Nat2Z.inj_succ, <- Z.add_1_r, inject_Z_plus. reflexivity. Qed.

Lemma qnat_add n k : qnat (n + k) == qnat n + qnat k.
Proof. unfold qnat. rewrite Nat2Z.inj_add, inject_Z_plus. reflexivity. Qed.

Lemma qnat_0 : qnat 0 = 0.
Proof. reflexivity. Qed.

Lemma py_min_compat x x' y : x == x' -> py_min x y == py_min x' y.
Proof.
  intro E. unfold py_min, qlt.
  destruct (Qle_bool x y) eqn:E1, (Qle_bool x' y) eqn:E2; simpl; try reflexivity;
    repeat match goal with
    | H : Qle_bool _ _ = true |- _ => apply Qle_bool_iff in H
    | H : Qle_bool ?a ?b = false |- _ =>
        assert (~ a <= b) by (rewrite <- Qle_bool_iff; congruence); clear H
    end; lra.
Qed.

Lemma fold_score (wt : evidence -> Q) m s0 :
  fold_left (fun score e => score + wt e) m s0 == s0 + fold_right Qplus 0 (map wt m).
Proof.
  revert s0; induction m as [|e m IH]; intro s0; cbn [fold_left map fold_right]; [ring|].
  rewrite IH. ring.
Qed.

Lemma evidence_sum_right wt m : evidence_sum wt m == fold_right Qplus 0 (map wt m).
Proof. unfold evidence_sum. rewrite fold_score. ring. Qed.

Lemma sum_right_app (wt : evidence -> Q) m1 m2 :
  fold_right Qplus 0 (map wt (m1 ++ m2)) ==
  fold_right Qplus 0 (map wt m1) + fold_right Qplus 0 (map wt m2).
Proof.
  induction m1 as [|e m1 IH]; cbn [app map fold_right]; [ring|]. rewrite IH. ring.
Qed.

Lemma sum_right_scale w (f : evidence -> Q) m :
  fold_right Qplus 0 (map (fun e => w * f e) m) == w * fold_right Qplus 0 (map f m).
Proof.
  induction m as [|e m IH]; cbn [map fold_right]; [ring|]. rewrite IH. ring.
Qed.

Lemma evidence_sum_const w m : evidence_sum (fun _ => w) m == w * qnat (length m).
Proof.
  rewrite evidence_sum_right. induction m as [|e m IH]; cbn [map fold_right length].
  - rewrite qnat_0. ring.
  - rewrite IH, qnat_S. ring.
Qed.

Lemma bios_sum (in_bios in_cpu : string -> bool) wb wc ks :
  fold_right Qplus 0
    (map (fun e => match e with EvBios _ => wb | _ => wc end)
       (flat_map (fun k => (if in_bios k then [EvBios (VStr k)] else []) ++
                           (if in_cpu k then [EvCpu (VStr k)] else [])) ks)) ==
  wb * qnat (length (filter in_bios ks)) + wc * qnat (length (filter in_cpu ks)).
Proof.
  induction ks as [|k ks IH]; cbn [flat_map filter length map fold_right].
  - rewrite qnat_0. ring.
  - rewrite sum_right_app, IH.
    destruct (in_bios k), (in_cpu k); cbn [app map fold_right length]; rewrite ?qnat_S; ring.
Qed.

Lemma length_if_single {A} (b : bool) (x : A) :
  length (if b then [x] else []) = if b then 1%nat else 0%nat.
Proof. destruct b; reflexivity. Qed.

Lemma length_flat_map_map {A B C} (g : A -> B -> C) (h : A -> list B) l :
  length (flat_map (fun x => map (g x) (h x)) l) = list_sum (map (fun x => length (h x)) l).
Proof.
  induction l as [|x l IH]; cbn [flat_map map list_sum]; [reflexivity|].
  rewrite length_app, length_map, IH. reflexivity.
Qed.

Lemma length_flat_map_map' {A B C} (g : B -> C) (h : A -> list B) l :
  length (flat_map (fun x => map g (h x)) l) = list_sum (map (fun x => length (h x)) l).
Proof. exact (length_flat_map_map (fun _ => g) h l). Qed.

Lemma loop_sumq {X} (l : list X) (d : X -> Q) (E : X -> list evidence) body q0 m0 q m :
  (forall a x a', In x l -> body a x = Ok a' ->
     fst a' == fst a + d x /\ snd a' = snd a ++ E x) ->
  py_for l (q0, m0) body = Ok (q, m) ->
  q == q0 + fold_right Qplus 0 (map d l) /\ m = m0 ++ flat_map E l.
Proof.
  revert q0 m0; induction l as [|x l IH]; intros q0 m0 Hb H; simpl in H.
  - injection H as <- <-. rewrite app_nil_r. simpl. split; [ring|reflexivity].
  - apply res_bind_ok in H as [[q1 m1] [H1 H2]].
    destruct (Hb _ _ _ (or_introl eq_refl) H1) as [Hq Hm]; simpl in Hq, Hm.
    destruct (IH q1 m1 (fun a y a' Hy => Hb a y a' (or_intror Hy)) H2) as [Hq' Hm'].
    simpl. split.
    + rewrite Hq', Hq. ring.
    + rewrite Hm', Hm, app_assoc. reflexivity.
Qed.

Lemma filter_map_comm {A B} (f : B -> bool) (h : A -> B) l :
  filter f (map h l) = map h (filter (fun x => f (h x)) l).
Proof. induction l as [|x l IH]; simpl; [reflexivity|]. destruct (f (h x)); simpl; rewrite IH; reflexivity. Qed.

Lemma sum_two_counts {A} (l : list A) (p r : A -> bool) (a b : Q) :
  fold_right Qplus 0 (map (fun x => (if p x then a else 0) + (if r x then b else 0)) l) ==
  a * qnat (length (filter p l)) + b * qnat (length (filter r l)).
Proof.
  induction l as [|x l IH]; simpl; [unfold qnat; simpl; ring|].
  rewrite IH. destruct (p x), (r x); simpl; rewrite ?qnat_S; ring.
Qed.

Section Counting.

Context (self : detector) (key : string) (dflt w : Q).
Hypothesis Hw : weight self key dflt = Ok (VNum w).

Lemma hit_weight a ev a' :
  hit self a key dflt ev = Ok a' -> fst a' = fst a + w /\ snd a' = snd a ++ [ev].
Proof.
  destruct a as [q m]; unfold hit; rewrite Hw; simpl.
  intro H; injection H as <-; auto.
Qed.

(** A loop whose body adds [g x] hits of the weight and the evidence
    [E x] for each element. *)
Lemma loop_sum {X} (l : list X) (g : X -> nat) (E : X -> list evidence) body q0 m0 q m :
  (forall a x a', In x l -> body a x = Ok a' ->
     fst a' == fst a + w * qnat (g x) /\ snd a' = snd a ++ E x) ->
  py_for l (q0, m0) body = Ok (q, m) ->
  q == q0 + w * qnat (list_sum (map g l)) /\ m = m0 ++ flat_map E l.
Proof.
  revert q0 m0; induction l as [|x l IH]; intros q0 m0 Hb H; simpl in H.
  - injection H as <- <-. rewrite app_nil_r. simpl. rewrite qnat_0. split; [ring|reflexivity].
  - apply res_bind_ok in H as [[q1 m1] [H1 H2]].
    destruct (Hb _ _ _ (or_introl eq_refl) H1) as [Hq Hm]; simpl in Hq, Hm.
    destruct (IH q1 m1 (fun a y a' Hy => Hb a y a' (or_intror Hy)) H2) as [Hq' Hm'].
    simpl. rewrite qnat_add. split.
    + rewrite Hq', Hq. ring.
    + rewrite Hm', Hm, app_assoc. reflexivity.
Qed.

(** The common case: one hit for each element satisfying [f]. *)
Lemma loop_count {X} (l : list X) (f : X -> bool) (ev : X -> evidence) body q0 m0 q m :
  (forall a x a', In x l -> body a x = Ok a' ->
     if f x then hit self a key dflt (ev x) = Ok a' else a' = a) ->
  py_for l (q0, m0) body = Ok (q, m) ->
  q == q0 + w * qnat (length (filter f l)) /\ m = m0 ++ map ev (filter f l).
Proof.
  intros Hb H.
  destruct (loop_sum l (fun x => if f x then 1%nat else 0%nat)
              (fun x => if f x then [ev x] else []) body q0 m0 q m) as [Hq Hm]; auto.
  - intros a x a' Hx Ha. specialize (Hb a x a' Hx Ha). destruct (f x).
    + apply hit_weight in Hb as [-> ->]. split; [|reflexivity].
      unfold qnat; simpl. ring.
    + subst. rewrite app_nil_r. split; [|reflexivity]. rewrite qnat_0. ring.
  - split.
    + replace (length (filter f l))
        with (list_sum (map (fun x => if f x then 1%nat else 0%nat) l)); [exact Hq|].
      clear. induction l as [|x l IH]; simpl; [reflexivity|].
      destruct (f x); simpl; rewrite IH; reflexivity.
    + rewrite Hm. f_equal. clear. induction l as [|x l IH]; simpl; [reflexivity|].
      destruct (f x); simpl; rewrite IH; reflexivity.
Qed.

End Counting.

Lemma set_mem_ok x s b : set_mem x s = Ok b -> b = existsb (py_eq x) s.
Proof. unfold set_mem. destruct (hashable x); intro H; [injection H; auto|discriminate]. Qed.

Lemma py_set_list l s : py_set (VList l) = Ok s -> s = l.
Proof. unfold py_set; simpl. destruct (forallb hashable l); intro H; [injection H; auto|discriminate]. Qed.

Lemma finish_ok a s m : finish a = Ok (s, m) -> s = py_min (fst a) 1 /\ m = snd a.
Proof. unfold finish. intro H; injection H as <- <-. auto. Qed.

(** The body of a membership loop: one hit when the element is in the set. *)
Ltac member_body :=
  let Hb := fresh "Hb" in
  intros ? ? ? _ Hb; inv_bind Hb;
  match goal with Hs : set_mem _ _ = Ok _ |- _ => apply set_mem_ok in Hs; subst end;
  match goal with |- if ?c then _ else _ => destruct c end;
  [exact Hb | injection Hb; auto].

(** The loop of [_check_processes] in count form. *)
Lemma check_processes_mul self sig snap w s m :
  weight self "process_match" (1#4) = Ok (VNum w) ->
  check_processes self (VList sig) (VList snap) = Ok (s, m) ->
  s == py_min (w * qnat (length (filter (fun p => existsb (py_eq p) snap) sig))) 1 /\
  m = map EvProcess (filter (fun p => existsb (py_eq p) snap) sig).
Proof.
  unfold check_processes; intros Hw H; inv_bind H.
  match goal with Hs : py_set _ = Ok _ |- _ => apply py_set_list in Hs; subst end.
  match goal with Hi : py_iter (VList _) = Ok _ |- _ => simpl in Hi; injection Hi as <- end.
  match goal with Hf : py_for _ _ _ = Ok _ |- _ =>
    eapply (loop_count _ _ _ _ Hw _ (fun p => existsb (py_eq p) snap) EvProcess) in Hf;
    [destruct Hf as [Hq Hm] | member_body] end.
  apply finish_ok in H as [-> ->]; simpl.
  split; [apply py_min_compat; rewrite Hq; ring | exact Hm].
Qed.

(** [_check_processes(processes, process_list)] gives one piece of
    evidence per entry of [processes] (the signature list, duplicates
    included, in its order) that occurs in the snapshot's [process_list];
    the score is [min(0.0 + w + ... + w, 1.0)], the [process_match] weight
    [w] added once per piece of evidence, in evidence order. *)
Theorem check_processes_counts self sig snap w s m :
  weight self "process_match" (1#4) = Ok (VNum w) ->
  check_processes self (VList sig) (VList snap) = Ok (s, m) ->
  m = map EvProcess (filter (fun p => existsb (py_eq p) snap) sig) /\
  s == py_min (evidence_sum (fun _ => w) m) 1.
Proof.
  intros Hw H. destruct (check_processes_mul _ _ _ _ _ _ Hw H) as [Hs Hm].
  split; [exact Hm|]. rewrite Hs. apply py_min_compat.
  rewrite evidence_sum_const, Hm, length_map. reflexivity.
Qed.

Lemma check_processes_counts_witness :
  weight default_detector "process_match" (1#4) = Ok (VNum (1#4)) /\
  exists a, check_processes default_detector (VList [VStr "teamviewer"; VStr "anydesk"])
              (VList [VStr "anydesk"; VStr "bash"]) = Ok a /\
    (snd a = map EvProcess (filter (fun p => existsb (py_eq p) [VStr "anydesk"; VStr "bash"])
                [VStr "teamviewer"; VStr "anydesk"]) /\
     fst a == py_min (evidence_sum (fun _ => 1#4) (snd a)) 1).
Proof.
  split; [reflexivity|]. eexists; split; [reflexivity|].
  apply (check_processes_counts default_detector [VStr "teamviewer"; VStr "anydesk"]
           [VStr "anydesk"; VStr "bash"] (1#4)); reflexivity.
Defined.

(** The loop of [_check_ports] in count form. *)
Lemma check_ports_mul self ports listening w s m :
  sig_list self "remote_indicators" "ports" = Ok (VList ports) ->
  weight self "port_match" (3#20) = Ok (VNum w) ->
  check_ports self (VList listening) = Ok (s, m) ->
  s == py_min (w * qnat (length (filter (fun p => existsb (py_eq p) listening) ports))) 1 /\
  m = map EvPort (filter (fun p => existsb (py_eq p) listening) ports).
Proof.
  unfold check_ports; intros Hp Hw H; inv_bind H.
  match goal with Hx : sig_list _ _ _ = Ok _ |- _ => rewrite Hp in Hx; injection Hx as <- end.
  match goal with Hs : py_set _ = Ok _ |- _ => apply py_set_list in Hs; subst end.
  match goal with Hi : py_iter (VList _) = Ok _ |- _ => simpl in Hi; injection Hi as <- end.
  match goal with Hf : py_for _ _ _ = Ok _ |- _ =>
    eapply (loop_count _ _ _ _ Hw _ (fun p => existsb (py_eq p) listening) EvPort) in Hf;
    [destruct Hf as [Hq Hm] | member_body] end.
  apply finish_ok in H as [-> ->]; simpl.
  split; [apply py_min_compat; rewrite Hq; ring | exact Hm].
Qed.

(** [_check_ports] gives one piece of evidence per configured
    remote-access port that is listening (numbers compare by value, so
    [3389] and [3389.0] are the same port), in signature order; the score is
    [min(0.0 + w + ... + w, 1.0)], the [port_match] weight [w] added once
    per piece of evidence. *)
Theorem check_ports_counts self ports listening w s m :
  sig_list self "remote_indicators" "ports" = Ok (VList ports) ->
  weight self "port_match" (3#20) = Ok (VNum w) ->
  check_ports self (VList listening) = Ok (s, m) ->
  m = map EvPort (filter (fun p => existsb (py_eq p) listening) ports) /\
  s == py_min (evidence_sum (fun _ => w) m) 1.
Proof.
  intros Hp Hw H. destruct (check_ports_mul _ _ _ _ _ _ Hp Hw H) as [Hs Hm].
  split; [exact Hm|]. rewrite Hs. apply py_min_compat.
  rewrite evidence_sum_const, Hm, length_map. reflexivity.
Qed.

Lemma check_ports_counts_witness :
  sig_list rdp_detector "remote_indicators" "ports" = Ok (VList [VNum 3389; VNum 5900]) /\
  weight rdp_detector "port_match" (3#20) = Ok (VNum (3#20)) /\
  exists a, check_ports rdp_detector (VList [VNum 22; VNum (33890#10)]) = Ok a /\
    (snd a = map EvPort (filter (fun p => existsb (py_eq p) [VNum 22; VNum (33890#10)])
                [VNum 3389; VNum 5900]) /\
     fst a == py_min (evidence_sum (fun _ => 3#20) (snd a)) 1).
Proof.
  split; [reflexivity|]. split; [reflexivity|]. eexists; split; [reflexivity|].
  apply (check_ports_counts rdp_detector [VNum 3389; VNum 5900]
           [VNum 22; VNum (33890#10)] (3#20)); reflexivity.
Defined.

Lemma in_map_VStr (ks : list string) x : In x (map VStr ks) -> exists k, x = VStr k.
Proof. intro H. apply in_map_iff in H as [k [<- _]]. eauto. Qed.

(** The loop of [_check_bios_keywords] in count form. *)
Lemma check_bios_keywords_mul py_repr self ks d wb wc s m :
  sig_list self "vm_indicators" "bios_keywords" = Ok (VList (map VStr ks)) ->
  weight self "bios_match" (2#5) = Ok (VNum wb) ->
  weight self "cpu_match" (1#5) = Ok (VNum wc) ->
  check_bios_keywords py_repr self (VDict d) = Ok (s, m) ->
  let manufacturer := lower (py_str py_repr (field d "manufacturer")) in
  let product := lower (py_str py_repr (field d "product")) in
  let cpu_info := lower (py_str py_repr (field d "cpu_info")) in
  let in_bios k := substr k manufacturer || substr k product in
  let in_cpu k := substr k cpu_info in
  s == py_min (wb * qnat (length (filter in_bios ks)) + wc * qnat (length (filter in_cpu ks))) 1 /\
  m = flat_map (fun k => (if in_bios k then [EvBios (VStr k)] else []) ++
                         (if in_cpu k then [EvCpu (VStr k)] else [])) ks.
Proof.
  intros Hk Hb Hc H man prod cpu in_bios in_cpu.
  unfold check_bios_keywords in H. rewrite Hk in H. cbn [res_bind getk py_get] in H.
  fold (field d "manufacturer") (field d "product") (field d "cpu_info") in H.
  fold man prod cpu in H. inv_bind H.
  match goal with Hi : py_iter (VList _) = Ok _ |- _ => simpl in Hi; injection Hi as <- end.
  match goal with Hf : py_for _ _ _ = Ok _ |- _ =>
    apply (loop_sumq _
      (fun x => match x with
                | VStr k => (if in_bios k then wb else 0) + (if in_cpu k then wc else 0)
                | _ => 0 end)
      (fun x => match x with
                | VStr k => (if in_bios k then [EvBios (VStr k)] else []) ++
                            (if in_cpu k then [EvCpu (VStr k)] else [])
                | _ => [] end)) in Hf as [Hq Hm] end.
  - apply finish_ok in H as [-> ->]; simpl. split.
    + apply py_min_compat. rewrite Hq, map_map, <- sum_two_counts. ring.
    + rewrite Hm. simpl. clear. induction ks as [|k ks IH]; simpl; [reflexivity|].
      rewrite IH. reflexivity.
  - intros [q0 m0] x [qa ma] Hx Hbd. apply in_map_VStr in Hx as [k ->].
    inv_bind Hbd. cbn [str_in] in *. unfold in_bios, in_cpu.
    destruct (substr k man), (substr k prod), (substr k cpu);
      repeat (cbv beta iota in *; match goal with
      | Hx : Ok _ = Ok _ |- _ => injection Hx; intros; subst
      | Hx : hit _ _ "bios_match" _ _ = Ok _ |- _ =>
          apply (hit_weight _ _ _ _ Hb) in Hx as [Hx1 Hx2]; cbn [fst snd] in Hx1, Hx2; subst
      | Hx : hit _ _ "cpu_match" _ _ = Ok _ |- _ =>
          apply (hit_weight _ _ _ _ Hc) in Hx as [Hx1 Hx2]; cbn [fst snd] in Hx1, Hx2; subst
      end);
      cbn [fst snd orb]; split; try ring; rewrite ?app_nil_r, <- ?app_assoc; reflexivity.
Qed.

(** [_check_bios_keywords]: keyword by keyword, a keyword found in the
    lowercased manufacturer or product string gives one BIOS finding (also
    when found in both) and a keyword found in the lowercased CPU string
    then gives one CPU finding; the score is [min(0.0 + ..., 1.0)] where
    each BIOS finding adds the [bios_match] weight and each CPU finding the
    [cpu_match] weight, in evidence order. *)
Theorem check_bios_keywords_counts py_repr self ks d wb wc s m :
  sig_list self "vm_indicators" "bios_keywords" = Ok (VList (map VStr ks)) ->
  weight self "bios_match" (2#5) = Ok (VNum wb) ->
  weight self "cpu_match" (1#5) = Ok (VNum wc) ->
  check_bios_keywords py_repr self (VDict d) = Ok (s, m) ->
  let manufacturer := lower (py_str py_repr (field d "manufacturer")) in
  let product := lower (py_str py_repr (field d "product")) in
  let cpu_info := lower (py_str py_repr (field d "cpu_info")) in
  let in_bios k := substr k manufacturer || substr k product in
  let in_cpu k := substr k cpu_info in
  m = flat_map (fun k => (if in_bios k then [EvBios (VStr k)] else []) ++
                         (if in_cpu k then [EvCpu (VStr k)] else [])) ks /\
  s == py_min (evidence_sum (fun e => match e with EvBios _ => wb | _ => wc end) m) 1.
Proof.
  intros Hk Hb Hc H.
  pose proof (check_bios_keywords_mul _ _ _ _ _ _ _ _ Hk Hb Hc H) as Hx.
  cbv zeta in Hx |- *. destruct Hx as [Hs Hm].
  split; [exact Hm|]. rewrite Hs. apply py_min_compat.
  rewrite evidence_sum_right, Hm, bios_sum. reflexivity.
Qed.

Lemma check_bios_keywords_counts_witness :
  sig_list (bios_kw_detector "virtualbox") "vm_indicators" "bios_keywords" =
    Ok (VList (map VStr ["virtualbox"])) /\
  weight (bios_kw_detector "virtualbox") "bios_match" (2#5) = Ok (VNum (2#5)) /\
  weight (bios_kw_detector "virtualbox") "cpu_match" (1#5) = Ok (VNum (1#5)) /\
  exists a, check_bios_keywords some_repr (bios_kw_detector "virtualbox") (VDict vbox_bios_fields) = Ok a /\
  let manufacturer := lower (py_str some_repr (field vbox_bios_fields "manufacturer")) in
  let product := lower (py_str some_repr (field vbox_bios_fields "product")) in
  let cpu_info := lower (py_str some_repr (field vbox_bios_fields "cpu_info")) in
  let in_bios k := substr k manufacturer || substr k product in
  let in_cpu k := substr k cpu_info in
  snd a = flat_map (fun k => (if in_bios k then [EvBios (VStr k)] else []) ++
                             (if in_cpu k then [EvCpu (VStr k)] else [])) ["virtualbox"] /\
  fst a == py_min (evidence_sum (fun e => match e with EvBios _ => 2#5 | _ => 1#5 end) (snd a)) 1.
Proof.
  split; [reflexivity|]. split; [reflexivity|]. split; [reflexivity|].
  eexists; split; [reflexivity|].
  apply (check_bios_keywords_counts some_repr (bios_kw_detector "virtualbox") ["virtualbox"]
           vbox_bios_fields (2#5) (1#5)); reflexivity.
Defined.

(** The loop of [_check_session] in count form. *)
Lemma check_session_mul py_repr self ks d w s m :
  sig_list self "remote_indicators" "session_keywords" = Ok (VList (map VStr ks)) ->
  weight self "session_match" (3#10) = Ok (VNum w) ->
  check_session py_repr self (VDict d) = Ok (s, m) ->
  let session_name := lower (py_str py_repr (field d "session_name")) in
  let ssh := match assoc "ssh_connection" d with Some v => truthy v | None => false end in
  let hits := filter (fun k => substr k session_name) ks in
  s == py_min (w * qnat (length hits + (if ssh then 1 else 0))) 1 /\
  m = map (fun _ => EvSession session_name) hits ++ (if ssh then [EvSsh] else []).
Proof.
  intros Hk Hw H name ssh hits.
  unfold check_session in H. rewrite Hk in H. cbn [res_bind getk py_get] in H.
  fold (field d "session_name") name in H. inv_bind H.
  match goal with Hi : py_iter (VList _) = Ok _ |- _ => simpl in Hi; injection Hi as <- end.
  match goal with Hf : py_for _ _ _ = Ok _ |- _ =>
    eapply (loop_count _ _ _ _ Hw _
              (fun x => match x with VStr k => substr k name | _ => false end)
              (fun _ => EvSession name)) in Hf; [destruct Hf as [Hq Hm]|] end.
  - rewrite filter_map_comm, length_map, map_map in *. fold hits in Hq, Hm.
    apply finish_ok in H as [-> ->]. cbn [fst snd].
    match goal with Hs : (if _ then hit _ _ _ _ _ else Ok _) = Ok _ |- _ => rename Hs into Ha2 end.
    unfold ssh; destruct (assoc "ssh_connection" d) as [v|]; cbn [truthy] in *.
    + destruct (truthy v); cbv beta iota in *.
      * apply (hit_weight _ _ _ _ Hw) in Ha2 as [H1 H2]; cbn [fst snd] in H1, H2.
        rewrite H1, H2, Hm. split; [apply py_min_compat; rewrite Hq, qnat_add; change (qnat 1) with 1; ring|].
        reflexivity.
      * injection Ha2 as <- <-. rewrite Hm, Nat.add_0_r, app_nil_r.
        split; [apply py_min_compat; rewrite Hq; ring|reflexivity].
    + injection Ha2 as <- <-. rewrite Hm, Nat.add_0_r, app_nil_r.
      split; [apply py_min_compat; rewrite Hq; ring|reflexivity].
  - intros a x a' Hx Hb. apply in_map_VStr in Hx as [k ->].
    inv_bind Hb. cbn [str_in] in Ha; injection Ha as <-.
    destruct (substr k name); [exact Hb|injection Hb; auto].
Qed.

(** [_check_session]: each session keyword found in the lowercased
    session name gives one piece of evidence naming the session, and a
    truthy [ssh_connection] one more; the score is
    [min(0.0 + w + ... + w, 1.0)], the [session_match] weight [w] added once
    per piece of evidence. *)
Theorem check_session_counts py_repr self ks d w s m :
  sig_list self "remote_indicators" "session_keywords" = Ok (VList (map VStr ks)) ->
  weight self "session_match" (3#10) = Ok (VNum w) ->
  check_session py_repr self (VDict d) = Ok (s, m) ->
  let session_name := lower (py_str py_repr (field d "session_name")) in
  let ssh := match assoc "ssh_connection" d with Some v => truthy v | None => false end in
  let hits := filter (fun k => substr k session_name) ks in
  m = map (fun _ => EvSession session_name) hits ++ (if ssh then [EvSsh] else []) /\
  s == py_min (evidence_sum (fun _ => w) m) 1.
Proof.
  intros Hk Hw H.
  pose proof (check_session_mul _ _ _ _ _ _ _ Hk Hw H) as Hx.
  cbv zeta in Hx |- *. destruct Hx as [Hs Hm].
  split; [exact Hm|]. rewrite Hs. apply py_min_compat.
  rewrite evidence_sum_const, Hm, length_app, length_map, length_if_single. reflexivity.
Qed.

Lemma check_session_counts_witness :
  sig_list (session_kw_detector "rdp") "remote_indicators" "session_keywords" =
    Ok (VList (map VStr ["rdp"])) /\
  weight (session_kw_detector "rdp") "session_match" (3#10) = Ok (VNum (3#10)) /\
  exists a, check_session some_repr (session_kw_detector "rdp") (VDict rdp_ssh_session) = Ok a /\
  let session_name := lower (py_str some_repr (field rdp_ssh_session "session_name")) in
  let ssh := match assoc "ssh_connection" rdp_ssh_session with
             | Some v => truthy v | None => false end in
  let hits := filter (fun k => substr k session_name) ["rdp"] in
  snd a = map (fun _ => EvSession session_name) hits ++ (if ssh then [EvSsh] else []) /\
  fst a == py_min (evidence_sum (fun _ => 3#10) (snd a)) 1.
Proof.
  split; [reflexivity|]. split; [reflexivity|]. eexists; split; [reflexivity|].
  apply (check_session_counts some_repr (session_kw_detector "rdp") ["rdp"]
           rdp_ssh_session (3#10)); reflexivity.
Defined.

Lemma py_lower_ok v t : py_lower v = Ok t -> exists u, v = VStr u /\ t = lower u.
Proof. destruct v; simpl; intro H; try discriminate. injection H as <-. eauto. Qed.

Lemma length_flat_map_sum {A B} (f : A -> list B) l :
  length (flat_map f l) = list_sum (map (fun x => length (f x)) l).
Proof. induction l as [|x l IH]; simpl; [reflexivity|]. rewrite length_app, IH. reflexivity. Qed.

(** The MAC scan, pair by pair of an address and a vendor prefix. *)
Lemma mac_scan_counts self vendors macs w s m :
  sig_list self "vm_indicators" "mac_vendors" = Ok (VList vendors) ->
  weight self "mac_match" (3#10) = Ok (VNum w) ->
  check_mac_addresses self (VList macs) = Ok (s, m) ->
  let hits mac := filter (fun v => startswith (mac_norm mac) (mac_norm v)) vendors in
  s == py_min (w * qnat (list_sum (map (fun mac => length (hits mac)) macs))) 1 /\
  m = flat_map (fun mac => map (EvMac mac) (hits mac)) macs.
Proof.
  intros Hv Hw H hits.
  unfold check_mac_addresses in H. inv_bind H.
  match goal with Hx : sig_list _ _ _ = Ok _ |- _ => rewrite Hv in Hx; injection Hx as <- end.
  match goal with Hi : py_iter (VList _) = Ok _ |- _ => simpl in Hi; injection Hi as <- end.
  match goal with Hf : py_for _ _ _ = Ok _ |- _ =>
    eapply (loop_sum w) with (g := fun mac => length (hits mac))
             (E := fun mac => map (EvMac mac) (hits mac)) in Hf as [Hq Hm] end.
  - apply finish_ok in H as [-> ->]. cbn [fst snd]. split; [|exact Hm].
    apply py_min_compat. rewrite Hq. ring.
  - intros [q0 m0] x a' _ Hb. inv_bind Hb.
    apply py_lower_ok in Ha as [u [-> ->]].
    simpl in Ha0; injection Ha0 as <-.
    destruct a' as [q1 m1].
    apply (loop_count _ _ _ _ Hw _ (fun v => startswith (mac_norm (VStr u)) (mac_norm v))
             (EvMac (VStr u))) in Hb as [Hq Hm].
    + cbn [fst snd]. split; [exact Hq|exact Hm].
    + intros a v a' _ Hc. inv_bind Hc.
      match goal with Hl : py_lower v = Ok _ |- _ => apply py_lower_ok in Hl as [t [-> ->]] end.
      cbn [mac_norm]. destruct (startswith _ _); [exact Hc|injection Hc; auto].
Qed.

(** [_check_mac_addresses]: every pair of a MAC address and a configured
    vendor prefix such that the normalised address (lowercase, [:] read as
    [-]) starts with the normalised prefix gives one piece of evidence, in
    address then vendor order; the score is [min(0.0 + w + ... + w, 1.0)],
    the [mac_match] weight [w] added once per piece of evidence. *)
Theorem check_mac_addresses_counts self vendors macs w s m :
  sig_list self "vm_indicators" "mac_vendors" = Ok (VList vendors) ->
  weight self "mac_match" (3#10) = Ok (VNum w) ->
  check_mac_addresses self (VList macs) = Ok (s, m) ->
  let hits mac := filter (fun v => startswith (mac_norm mac) (mac_norm v)) vendors in
  m = flat_map (fun mac => map (EvMac mac) (hits mac)) macs /\
  s == py_min (evidence_sum (fun _ => w) m) 1.
Proof.
  intros Hv Hw H.
  pose proof (mac_scan_counts _ _ _ _ _ _ Hv Hw H) as Hx.
  cbv zeta in Hx |- *. destruct Hx as [Hs Hm].
  split; [exact Hm|]. rewrite Hs. apply py_min_compat.
  rewrite evidence_sum_const, Hm, length_flat_map_map. reflexivity.
Qed.

Lemma check_mac_addresses_counts_witness :
  sig_list vbox_mac_detector "vm_indicators" "mac_vendors" = Ok (VList [VStr "08:00:27"]) /\
  weight vbox_mac_detector "mac_match" (3#10) = Ok (VNum (3#10)) /\
  exists a, check_mac_addresses vbox_mac_detector
              (VList [VStr "08-00-27-AA-BB-CC"; VStr "00:11:22:33:44:55"]) = Ok a /\
  let hits mac := filter (fun v => startswith (mac_norm mac) (mac_norm v)) [VStr "08:00:27"] in
  snd a = flat_map (fun mac => map (EvMac mac) (hits mac))
            [VStr "08-00-27-AA-BB-CC"; VStr "00:11:22:33:44:55"] /\
  fst a == py_min (evidence_sum (fun _ => 3#10) (snd a)) 1.
Proof.
  split; [reflexivity|]. split; [reflexivity|]. eexists; split; [reflexivity|].
  apply (check_mac_addresses_counts vbox_mac_detector [VStr "08:00:27"]
           [VStr "08-00-27-AA-BB-CC"; VStr "00:11:22:33:44:55"] (3#10)); reflexivity.
Defined.

(** The MAC check sees an address only through its normalised form: two
    address lists that agree after lowercasing and reading [:] as [-] get
    the same score and the same number of matches. *)
Theorem check_mac_addresses_normalized self vendors macs1 macs2 w s1 m1 s2 m2 :
  sig_list self "vm_indicators" "mac_vendors" = Ok (VList vendors) ->
  weight self "mac_match" (3#10) = Ok (VNum w) ->
  check_mac_addresses self (VList macs1) = Ok (s1, m1) ->
  check_mac_addresses self (VList macs2) = Ok (s2, m2) ->
  map mac_norm macs1 = map mac_norm macs2 ->
  s1 == s2 /\ length m1 = length m2.
Proof.
  intros Hv Hw H1 H2 Hn.
  destruct (mac_scan_counts _ _ _ _ _ _ Hv Hw H1) as [Hs1 ->].
  destruct (mac_scan_counts _ _ _ _ _ _ Hv Hw H2) as [Hs2 ->].
  set (g := fun n => length (filter (fun v => startswith n (mac_norm v)) vendors)).
  assert (E : forall macs, list_sum (map (fun mac => length (filter
                (fun v => startswith (mac_norm mac) (mac_norm v)) vendors)) macs) =
                list_sum (map g (map mac_norm macs)))
    by (intro macs; rewrite map_map; reflexivity).
  rewrite !length_flat_map_sum. setoid_rewrite length_map.
  rewrite Hs1, Hs2, !E, Hn. split; reflexivity.
Qed.

Lemma check_mac_addresses_normalized_witness :
  sig_list vbox_mac_detector "vm_indicators" "mac_vendors" = Ok (VList [VStr "08:00:27"]) /\
  weight vbox_mac_detector "mac_match" (3#10) = Ok (VNum (3#10)) /\
  exists a1 a2,
    check_mac_addresses vbox_mac_detector (VList [VStr "08:00:27:AA:BB:CC"]) = Ok a1 /\
    check_mac_addresses vbox_mac_detector (VList [VStr "08-00-27-aa-bb-cc"]) = Ok a2 /\
    map mac_norm [VStr "08:00:27:AA:BB:CC"] = map mac_norm [VStr "08-00-27-aa-bb-cc"] /\
    (fst a1 == fst a2 /\ length (snd a1) = length (snd a2)).
Proof.
  split; [reflexivity|]. split; [reflexivity|].
  eexists; eexists; split; [reflexivity|]. split; [reflexivity|]. split; [reflexivity|].
  apply (check_mac_addresses_normalized vbox_mac_detector [VStr "08:00:27"]
           [VStr "08:00:27:AA:BB:CC"] [VStr "08-00-27-aa-bb-cc"] (3#10)); reflexivity.
Defined.

(** The device loop of [_check_gpu_artifacts] off Windows, in count form. *)
Lemma check_gpu_off_windows_mul py_repr self gpu devs w s m :
  getk gpu "devices" (VList []) = Ok (VList devs) ->
  weight self "gpu_match" (3#20) = Ok (VNum w) ->
  check_gpu_artifacts py_repr false self gpu = Ok (s, m) ->
  let kws d := filter (fun k => substr k (gpu_device_name py_repr d)) vm_gpu_keywords in
  s == py_min (w * qnat (list_sum (map (fun d => length (kws d)) devs))) 1 /\
  m = flat_map (fun d => map EvGpu (kws d)) devs.
Proof.
  intros Hd Hw H kws.
  unfold check_gpu_artifacts in H. inv_bind H.
  match goal with Hx : getk gpu "devices" _ = Ok _ |- _ => rewrite Hd in Hx; injection Hx as <- end.
  match goal with Hi : py_iter (VList _) = Ok _ |- _ => simpl in Hi; injection Hi as <- end.
  match goal with Hx : Ok _ = Ok _ |- _ => injection Hx; intros; subst end.
  match goal with Hf : py_for _ _ _ = Ok _ |- _ =>
    eapply (loop_sum w) with (g := fun d => length (kws d))
             (E := fun d => map EvGpu (kws d)) in Hf as [Hq Hm] end.
  - apply finish_ok in H as [-> ->]. cbn [fst snd]. split; [|exact Hm].
    apply py_min_compat. rewrite Hq. ring.
  - intros [qa ma] x a' _ Hb. inv_bind Hb.
    match goal with Hx : (match x with VDict _ => _ | _ => _ end) = Ok ?n |- _ =>
      assert (Hn : n = gpu_device_name py_repr x)
        by (destruct x; cbn in Hx |- *; inv_bind Hx; injection Hx; auto); subst n end.
    destruct a' as [q1 m1].
    apply (loop_count _ _ _ _ Hw _ (fun k => substr k (gpu_device_name py_repr x)) EvGpu)
      in Hb as [Hq Hm].
    + cbn [fst snd]. split; [exact Hq|exact Hm].
    + intros ak k ak' _ Hc. destruct (substr _ _); [exact Hc|injection Hc; auto].
Qed.

(** [_check_gpu_artifacts] off Windows: each pair of a GPU device and a
    keyword of [vm_gpu_keywords] occurring in the device's lowercased name
    gives one piece of evidence, in device then keyword order, and nothing
    else is added; the score is [min(0.0 + w + ... + w, 1.0)], the
    [gpu_match] weight [w] added once per piece of evidence. *)
Theorem check_gpu_counts_off_windows py_repr self gpu devs w s m :
  getk gpu "devices" (VList []) = Ok (VList devs) ->
  weight self "gpu_match" (3#20) = Ok (VNum w) ->
  check_gpu_artifacts py_repr false self gpu = Ok (s, m) ->
  let kws d := filter (fun k => substr k (gpu_device_name py_repr d)) vm_gpu_keywords in
  m = flat_map (fun d => map EvGpu (kws d)) devs /\
  s == py_min (evidence_sum (fun _ => w) m) 1.
Proof.
  intros Hd Hw H.
  pose proof (check_gpu_off_windows_mul _ _ _ _ _ _ _ Hd Hw H) as Hx.
  cbv zeta in Hx |- *. destruct Hx as [Hs Hm].
  split; [exact Hm|]. rewrite Hs. apply py_min_compat.
  rewrite evidence_sum_const, Hm, length_flat_map_map'. reflexivity.
Qed.

Lemma check_gpu_counts_off_windows_witness :
  getk gpu_vmware "devices" (VList []) =
    Ok (VList [VDict [("name", VStr "VMware SVGA 3D")]; VStr "NVIDIA GeForce"]) /\
  weight default_detector "gpu_match" (3#20) = Ok (VNum (3#20)) /\
  exists a, check_gpu_artifacts some_repr false default_detector gpu_vmware = Ok a /\
  let kws d := filter (fun k => substr k (gpu_device_name some_repr d)) vm_gpu_keywords in
  snd a = flat_map (fun d => map EvGpu (kws d))
            [VDict [("name", VStr "VMware SVGA 3D")]; VStr "NVIDIA GeForce"] /\
  fst a == py_min (evidence_sum (fun _ => 3#20) (snd a)) 1.
Proof.
  split; [reflexivity|]. split; [reflexivity|]. eexists; split; [reflexivity|].
  apply (check_gpu_counts_off_windows some_repr default_detector gpu_vmware
           [VDict [("name", VStr "VMware SVGA 3D")]; VStr "NVIDIA GeForce"] (3#20));
    reflexivity.
Defined.

(** The weak "no GPU indicators" evidence of [_check_gpu_artifacts] is
    only ever given on Windows, and only when the GPU record's [devices]
    and [processes] are both empty, no driver flag is set and [count] is 0. *)
Theorem check_gpu_no_gpu_only_when_empty py_repr on_windows self gpu s m :
  check_gpu_artifacts py_repr on_windows self gpu = Ok (s, m) ->
  In EvNoGpu m ->
  on_windows = true /\
  (exists dv, getk gpu "devices" (VList []) = Ok dv /\ py_len dv = Ok 0%nat) /\
  (exists pv, getk gpu "processes" (VList []) = Ok pv /\ py_len pv = Ok 0%nat) /\
  (exists c, getk gpu "count" (VNum 0) = Ok c /\ py_eq c (VNum 0) = true) /\
  Forall (fun k => exists v, getk gpu k (VBool false) = Ok v /\ truthy v = false)
    ["nvidia_driver"; "amd_driver"; "intel_driver"].
Proof.
  intros H Hin. unfold check_gpu_artifacts in H. inv_bind H.
  apply finish_ok in H as [_ ->]. cbn [snd] in Hin.
  match goal with Hf : py_for _ _ _ = Ok ?p |- _ =>
    assert (Hp : ~ In EvNoGpu (snd p));
    [refine (py_for_inv (fun a => ~ In EvNoGpu (snd a)) _ _ _ _ _ _ Hf); [simpl; tauto|];
     intros [qx mx] x ax Hn Hb; inv_bind Hb;
     refine (py_for_inv (fun a => ~ In EvNoGpu (snd a)) _ _ _ _ _ _ Hb); [exact Hn|];
     intros [qy my] k ay Hn' Hc; destruct (substr _ _);
       [unfold hit in Hc; inv_bind Hc; injection Hc as <-; cbn [snd];
        rewrite in_app_iff; simpl; intuition discriminate
       |injection Hc as <-; exact Hn']
    | cbn [snd] in Hp] end.
  destruct on_windows;
    [|match goal with Hx : Ok _ = Ok _ |- _ => injection Hx; intros; subst; contradiction end].
  match goal with Hx : res_bind _ _ = Ok _ |- _ => inv_bind Hx end.
  match goal with Hx : (if ?c then _ else Ok ?p) = Ok _ |- _ =>
    destruct c; [|injection Hx; intros; subst; contradiction] end.
  match goal with Hx : (if ?c then _ else Ok false) = Ok true |- _ =>
    destruct c eqn:Hc; [|discriminate] end.
  match goal with Hx : res_bind (py_len _) _ = Ok true |- _ => inv_bind Hx end.
  repeat rewrite andb_true_iff in Hc. rewrite !negb_true_iff in Hc.
  destruct Hc as [[[Hn Ha'] Hi] Hz].
  match goal with Hx : (if Nat.eqb ?n 0 then _ else Ok false) = Ok true |- _ =>
    destruct (Nat.eqb n 0) eqn:Hn0; [|discriminate]; apply Nat.eqb_eq in Hn0; subst n;
    inv_bind Hx; injection Hx as Hx; apply Nat.eqb_eq in Hx; subst end.
  split; [reflexivity|]. repeat split; eauto.
  repeat constructor; eauto.
Qed.

Lemma check_gpu_no_gpu_only_when_empty_witness :
  exists a, check_gpu_artifacts some_repr true default_detector (VDict []) = Ok a /\
  In EvNoGpu (snd a) /\
  (true = true /\
  (exists dv, getk (VDict []) "devices" (VList []) = Ok dv /\ py_len dv = Ok 0%nat) /\
  (exists pv, getk (VDict []) "processes" (VList []) = Ok pv /\ py_len pv = Ok 0%nat) /\
  (exists c, getk (VDict []) "count" (VNum 0) = Ok c /\ py_eq c (VNum 0) = true) /\
  Forall (fun k => exists v, getk (VDict []) k (VBool false) = Ok v /\ truthy v = false)
    ["nvidia_driver"; "amd_driver"; "intel_driver"]).
Proof.
  eexists; split; [reflexivity|]. split; [simpl; auto|].
  eapply (check_gpu_no_gpu_only_when_empty some_repr true default_detector (VDict [])).
  - reflexivity.
  - simpl; auto.
Defined.

Lemma hit_scaled_weight self a key dflt f ev a' w :
  weight self key dflt = Ok (VNum w) ->
  hit_scaled self a key dflt f ev = Ok a' ->
  fst a' = fst a + w * f /\ snd a' = snd a ++ [ev].
Proof.
  intro Hw. destruct a as [q m]; unfold hit_scaled; rewrite Hw; simpl.
  intro H; injection H as <-; auto.
Qed.

(** [_check_timing_anomalies] with its score in factored form. *)
Lemma check_timing_mul self td w s m :
  weight self "timing_match" (3#20) = Ok (VNum w) ->
  check_timing_anomalies self td = Ok (s, m) ->
  s == py_min (w * fold_right Qplus 0 (map timing_factor m)) 1 /\
  (length m <= 3)%nat /\ forallb timing_evidence m = true.
Proof.
  intros Hw H. unfold check_timing_anomalies in H.
  repeat match goal with
  | Hx : res_bind _ _ = Ok _ |- _ => inv_bind Hx
  | Hx : (if ?c then _ else _) = Ok _ |- _ => destruct c
  | Hx : Ok _ = Ok _ |- _ => injection Hx; clear Hx; intros; subst
  | Hx : Exc _ = Ok _ |- _ => discriminate Hx
  | Hx : hit_scaled _ _ _ _ _ _ = Ok _ |- _ =>
      apply (hit_scaled_weight _ _ _ _ _ _ _ _ Hw) in Hx as [Hx1 Hx2];
      cbn [fst snd] in Hx1, Hx2; subst
  end;
  apply finish_ok in H as [-> ->]; cbn [fst snd app map fold_right length forallb timing_factor
    timing_evidence andb];
  (split; [apply py_min_compat; ring | split; [lia | reflexivity]]).
Qed.

(** [_check_timing_anomalies] gives at most three findings, all of them
    timing findings; its score is [min(0.0 + ..., 1.0)] where, in evidence
    order, the variance finding adds [w * 0.6] and the CPU-count and the
    fixed-frequency findings each add [w * 0.5], for the [timing_match]
    weight [w]. *)
Theorem check_timing_score self td w s m :
  weight self "timing_match" (3#20) = Ok (VNum w) ->
  check_timing_anomalies self td = Ok (s, m) ->
  (length m <= 3)%nat /\ forallb timing_evidence m = true /\
  s == py_min (evidence_sum (fun e => w * timing_factor e) m) 1.
Proof.
  intros Hw H. destruct (check_timing_mul _ _ _ _ _ Hw H) as [Hs [Hl Ht]].
  split; [exact Hl|]. split; [exact Ht|]. rewrite Hs. apply py_min_compat.
  rewrite evidence_sum_right, sum_right_scale. reflexivity.
Qed.

Lemma check_timing_score_witness :
  weight default_detector "timing_match" (3#20) = Ok (VNum (3#20)) /\
  exists a, check_timing_anomalies default_detector timing_all = Ok a /\
  ((length (snd a) <= 3)%nat /\ forallb timing_evidence (snd a) = true /\
   fst a == py_min (evidence_sum (fun e => (3#20) * timing_factor e) (snd a)) 1).
Proof.
  split; [reflexivity|]. eexists; split; [reflexivity|].
  eapply (check_timing_score default_detector timing_all (3#20)); reflexivity.
Defined.

(** ** History statistics, clearing and reloading *)

Lemma count_flag_le hs key n : count_flag hs key = Ok n -> (n <= length hs)%nat.
Proof.
  unfold count_flag. change n with (0 + n)%nat at 1.
  assert (G : forall n0, py_for hs n0 (fun n h =>
            v <- getk h key (VBool false) ;; Ok (if truthy v then S n else n)) = Ok n ->
            (n <= n0 + length hs)%nat).
  { induction hs as [|h hs IH]; intros n0 H; simpl in H.
    - injection H as <-. simpl. lia.
    - inv_bind H. inv_bind Ha. injection Ha as <-. apply IH in H. simpl.
      destruct (truthy _); lia. }
  intro H. apply G in H. lia.
Qed.

Lemma qnat_le n k : (n <= k)%nat -> qnat n <= qnat k.
Proof. intro H. unfold qnat. rewrite <- Zle_Qle. lia. Qed.

Lemma qnat_pos n : (0 < n)%nat -> 0 < qnat n.
Proof. intro H. unfold qnat. change 0 with (inject_Z 0). rewrite <- Zlt_Qlt. lia. Qed.

Lemma rate_bounds v t : (v <= t)%nat -> (0 < t)%nat -> 0 <= qnat v / qnat t * 100 <= 100.
Proof.
  intros Hv Ht. pose proof (qnat_pos _ Ht) as Hp. pose proof (qnat_le _ _ Hv) as Hl.
  pose proof (qnat_nonneg v) as Hn.
  assert (H0 : 0 <= qnat v / qnat t) by (apply Qle_shift_div_l; [exact Hp | lra]).
  assert (H1 : qnat v / qnat t <= 1) by (apply Qle_shift_div_r; [exact Hp | lra]).
  set (r := qnat v / qnat t) in *. lra.
Qed.

(** [get_statistics] on a non-empty history: the total is the history's
    length, each detection count is at most the total, and each rate is the
    count over the total times 100, so it lies in [0, 100]. *)
Theorem get_statistics_rates a t v r sc vr rr sr f l :
  get_statistics a = Ok (Stats t v r sc vr rr sr f l) ->
  t = length (history a) /\ (0 < t)%nat /\
  (v <= t)%nat /\ (r <= t)%nat /\ (sc <= t)%nat /\
  vr == qnat v / qnat t * 100 /\ rr == qnat r / qnat t * 100 /\
  sr == qnat sc / qnat t * 100 /\
  (0 <= vr <= 100) /\ (0 <= rr <= 100) /\ (0 <= sr <= 100).
Proof.
  unfold get_statistics. destruct (history a) as [|e h] eqn:Eh; intro H; [discriminate|].
  inv_bind H. injection H; intros; subst.
  repeat match goal with
  | H1 : count_flag ?x ?k = Ok ?n1, H2 : count_flag ?x ?k = Ok ?n2 |- _ =>
      rewrite H1 in H2; injection H2; clear H2; intros; subst
  end.
  assert (Ht : (0 < length (e :: h))%nat) by (simpl; lia).
  repeat match goal with
  | Hc : count_flag _ _ = Ok _ |- _ =>
      apply count_flag_le in Hc; pose proof (rate_bounds _ _ Hc Ht)
  end.
  cbn [length] in *. repeat split; try reflexivity; try lia; lra.
Qed.

Lemma get_statistics_rates_witness :
  exists t v r sc vr rr sr f l,
    get_statistics vm_turns_on = Ok (Stats t v r sc vr rr sr f l) /\
    (t = length (history vm_turns_on) /\ (0 < t)%nat /\
     (v <= t)%nat /\ (r <= t)%nat /\ (sc <= t)%nat /\
     vr == qnat v / qnat t * 100 /\ rr == qnat r / qnat t * 100 /\
     sr == qnat sc / qnat t * 100 /\
     (0 <= vr <= 100) /\ (0 <= rr <= 100) /\ (0 <= sr <= 100)).
Proof.
  do 9 eexists; split; [reflexivity|].
  eapply get_statistics_rates; reflexivity.
Defined.

Lemma keep_last_short {A} (l : list A) m :
  (1 <= m)%Z -> (length l <= Z.to_nat m)%nat -> keep_last l m = l.
Proof.
  intros Hm Hl. unfold keep_last, slice_from.
  replace (- m <? 0)%Z with true by (symmetry; apply Z.ltb_lt; lia).
  replace (Z.to_nat (Z.max 0 (Z.of_nat (length l) + - m))) with 0%nat by lia.
  reflexivity.
Qed.

Lemma keep_last_idem {A} (l : list A) m :
  (0 <= m)%Z -> keep_last (keep_last l m) m = keep_last l m.
Proof.
  intro Hm. destruct (Z.eq_dec m 0) as [->|Hne].
  - rewrite !keep_last_zero. reflexivity.
  - assert (H1 : (1 <= m)%Z) by lia.
    apply keep_last_short; [exact H1|].
    destruct (keep_last_pos l m H1) as [-> _]. lia.
Qed.

(** Restarting the analyzer from the file its last [_save_history] wrote
    gives back the saved state, when [max_history] is not negative: the
    reload trims nothing more. *)
Theorem load_after_save_round_trip a :
  (0 <= max_history a)%Z ->
  init_analyzer (max_history a) (saved_file a) = save_history a.
Proof.
  intro Hm. unfold init_analyzer, saved_file, load_history, save_history.
  cbn [history max_history]. rewrite keep_last_idem by exact Hm. reflexivity.
Qed.

Lemma load_after_save_round_trip_witness :
  (0 <= max_history (mk_analyzer (history vm_turns_on) 1))%Z /\
  init_analyzer (max_history (mk_analyzer (history vm_turns_on) 1))
    (saved_file (mk_analyzer (history vm_turns_on) 1)) =
  save_history (mk_analyzer (history vm_turns_on) 1).
Proof.
  split; [simpl; lia|]. apply load_after_save_round_trip. simpl; lia.
Defined.

(** With a negative [max_history], [self.history[-self.max_history:]]
    starts at a positive index: [_save_history] drops the [-max_history]
    oldest entries instead of keeping the most recent ones. *)
Theorem save_history_negative_max a :
  (max_history a < 0)%Z ->
  history (save_history a) = skipn (Z.to_nat (- max_history a)) (history a).
Proof.
  intro Hm. unfold save_history, keep_last, slice_from. cbn [history].
  replace (- max_history a <? 0)%Z with false by (symmetry; apply Z.ltb_ge; lia).
  destruct (Z.le_gt_cases (- max_history a) (Z.of_nat (length (history a)))) as [Hle|Hgt].
  - rewrite Z.min_l by lia. reflexivity.
  - rewrite Z.min_r by lia. rewrite Nat2Z.id, skipn_all.
    symmetry. apply skipn_all2. lia.
Qed.

Lemma save_history_negative_max_witness :
  (max_history (mk_analyzer (history vm_turns_on) (-1)) < 0)%Z /\
  history (save_history (mk_analyzer (history vm_turns_on) (-1))) =
  skipn (Z.to_nat (- max_history (mk_analyzer (history vm_turns_on) (-1))))
    (history (mk_analyzer (history vm_turns_on) (-1))).
Proof.
  split; [simpl; lia|]. apply save_history_negative_max. simpl; lia.
Defined.

(** After [clear_history], one [add_detection] leaves at most one entry,
    so [analyze_patterns] reports insufficient data; right after clearing,
    [get_statistics] reports no history. *)
Theorem clear_history_resets a ts r a' :
  add_detection ts r (clear_history a) = Ok a' ->
  max_history a' = max_history a /\ (length (history a') <= 1)%nat /\
  analyze_patterns a' = Ok Insufficient /\
  get_statistics (clear_history a) = Ok NoHistory.
Proof.
  intro H. unfold add_detection in H. inv_bind H. injection H as <-.
  unfold clear_history, save_history in *. cbn [history max_history] in *.
  assert (E : keep_last (@nil value) (max_history a) = []).
  { unfold keep_last, slice_from. apply skipn_nil. }
  rewrite E. cbn [app].
  assert (L : (length (keep_last [a0] (max_history a)) <= 1)%nat).
  { unfold keep_last, slice_from. rewrite length_skipn. cbn [length]. lia. }
  split; [reflexivity|]. split; [exact L|]. split; [|reflexivity].
  unfold analyze_patterns. cbn [history].
  replace (length _ <? 2)%nat with true by (symmetry; apply Nat.ltb_lt; lia).
  reflexivity.
Qed.

Lemma clear_history_resets_witness :
  exists a', add_detection "t2" clean_result (clear_history vm_turns_on) = Ok a' /\
  (max_history a' = max_history vm_turns_on /\ (length (history a') <= 1)%nat /\
   analyze_patterns a' = Ok Insufficient /\
   get_statistics (clear_history vm_turns_on) = Ok NoHistory).
Proof.
  eexists; split; [reflexivity|].
  apply (clear_history_resets vm_turns_on "t2" clean_result); reflexivity.
Defined.

(** ** The values [analyze_patterns] reports *)

Lemma map_res_length {A B} (f : A -> Res B) l l' :
  map_res f l = Ok l' -> length l' = length l.
Proof.
  revert l'; induction l as [|x l IH]; intros l' H; simpl in H.
  - injection H as <-; reflexivity.
  - inv_bind H. injection H as <-. simpl. f_equal. apply IH. assumption.
Qed.

Lemma py_for_count_le {A} (l : list A) n0 body n :
  (forall k x k', body k x = Ok k' -> (k' <= S k)%nat) ->
  py_for l n0 body = Ok n -> (n <= n0 + length l)%nat.
Proof.
  intro Hb. revert n0; induction l as [|x l IH]; intros n0 H; simpl in H.
  - injection H as <-. lia.
  - inv_bind H. apply Hb in Ha. apply IH in H. simpl. lia.
Qed.

Lemma metric_anomalies_values h s :
  metric_anomalies h = Ok s -> Forall (metric_anomaly_ok (length h)) s.
Proof.
  unfold metric_anomalies; intro H.
  destruct (5 <=? length h)%nat eqn:H5; [|injection H as <-; constructor].
  apply Nat.leb_le in H5.
  inv_bind H. injection H as <-. apply Forall_app.
  assert (Hc : forall (l : list value) (f : Q -> anomaly) r,
             (forall q, 90 < q -> metric_anomaly_ok (length h) (f q)) ->
             match l with
             | [] => Ok []
             | _ => avg <- py_avg l ;; Ok (if qlt 90 avg then [f avg] else [])
             end = Ok r -> Forall (metric_anomaly_ok (length h)) r).
  { intros l f r Hf Hr. destruct l as [|x l].
    - injection Hr as <-; constructor.
    - inv_bind Hr. injection Hr as <-. destruct (qlt 90 _) eqn:Hq; [|constructor].
      constructor; [|constructor]. apply Hf.
      unfold qlt in Hq. apply negb_true_iff in Hq.
      apply Qnot_le_lt. intro Hle. apply Qle_bool_iff in Hle. congruence. }
  split; eapply Hc; try eassumption; intros q Hq; simpl; split; assumption.
Qed.

Lemma qlt_true a b : qlt a b = true -> a < b.
Proof.
  unfold qlt; intro H. apply negb_true_iff in H.
  apply Qnot_le_lt. intro Hle. apply Qle_bool_iff in Hle. congruence.
Qed.

Lemma consistent_high_ok n hi :
  (hi <= n)%nat ->
  Forall (anomaly_ok n)
    (if qlt (qnat n * (4#5)) (qnat hi)
     then [ConsistentVMHigh hi (qnat hi / qnat n * 100)] else []).
Proof.
  intro Hle. destruct (qlt _ _) eqn:Hq; [|constructor].
  apply qlt_true in Hq. constructor; [|constructor]. cbn [anomaly_ok].
  split; [exact Hle|].
  assert (Hn : (0 < n)%nat).
  { destruct n; [|lia]. replace hi with 0%nat in Hq by lia.
    rewrite qnat_0 in Hq. cbv in Hq. discriminate. }
  pose proof (qnat_pos _ Hn) as Hp. pose proof (qnat_le _ _ Hle) as Hl.
  assert (H0 : 4#5 < qnat hi / qnat n) by (apply Qlt_shift_div_l; [exact Hp | lra]).
  assert (H1 : qnat hi / qnat n <= 1) by (apply Qle_shift_div_r; [exact Hp | lra]).
  set (x := qnat hi / qnat n) in *. lra.
Qed.

(** [analyze_patterns] on enough data: the total is the history's length
    (at least 2), each detection count is at most the total, a
    consistent-high-VM anomaly counts at most the total with a percentage
    above 80 and at most 100, and a high CPU or memory anomaly needs five
    entries and an average above 90. *)
Theorem analyze_patterns_report a t v r sc av ar asc an :
  analyze_patterns a = Ok (Sufficient t v r sc av ar asc an) ->
  t = length (history a) /\ (2 <= t)%nat /\
  (v <= t)%nat /\ (r <= t)%nat /\ (sc <= t)%nat /\
  Forall (anomaly_ok t) an.
Proof.
  unfold analyze_patterns; intro H.
  destruct (length (history a) <? 2)%nat eqn:H2; [discriminate|].
  apply Nat.ltb_ge in H2.
  inv_bind H. destruct (last_two (history a)) as [p c].
  inv_bind H. injection H; intros; subst.
  repeat match goal with
  | Hc : count_flag _ _ = Ok _ |- _ => apply count_flag_le in Hc
  | Hs : sudden _ _ _ _ _ = Ok _ |- _ => apply sudden_ok in Hs as [? [? ->]]
  | Hm : metric_anomalies _ = Ok _ |- _ => apply metric_anomalies_values in Hm
  end.
  split; [reflexivity|]. split; [exact H2|]. split; [assumption|].
  split; [assumption|]. split; [assumption|].
  repeat rewrite Forall_app.
  refine (conj _ (conj _ (conj _ (conj _ _))));
    try (match goal with |- Forall _ (if ?b then [?y] else []) =>
           lazymatch y with ConsistentVMHigh _ _ => fail | _ => idtac end;
           destruct b; repeat constructor end).
  - match goal with Hh : py_for ?vc 0%nat _ = Ok ?hi,
                    Hm : map_res _ (history a) = Ok ?vc |- _ =>
      apply py_for_count_le in Hh;
      [apply map_res_length in Hm; rewrite Hm in Hh; simpl in Hh
      |intros k y k' Hb; inv_bind Hb; injection Hb as <-;
       match goal with |- ((if ?b then _ else _) <= _)%nat => destruct b end; lia] end.
    apply consistent_high_ok. assumption.
  - eapply Forall_impl; [|eassumption].
    intros [] Hx; cbn in Hx |- *; tauto.
Qed.

Lemma analyze_patterns_report_witness :
  exists t v r sc av ar asc an,
    analyze_patterns vm_high_history = Ok (Sufficient t v r sc av ar asc an) /\
    In (ConsistentVMHigh 2 (qnat 2 / qnat 2 * 100)) an /\
    (t = length (history vm_high_history) /\ (2 <= t)%nat /\
     (v <= t)%nat /\ (r <= t)%nat /\ (sc <= t)%nat /\
     Forall (anomaly_ok t) an).
Proof.
  do 8 eexists; split; [reflexivity|]. split; [simpl; auto|].
  eapply analyze_patterns_report; reflexivity.
Defined.

(** ** Averages over histories written by [add_detection] *)

Lemma map_res_forall {A B} (f : A -> Res B) (P : A -> Prop) (R : B -> Prop) l l' :
  (forall x y, P x -> f x = Ok y -> R y) ->
  Forall P l -> map_res f l = Ok l' -> Forall R l'.
Proof.
  intros Hf HP. revert l'; induction HP as [|x l Hx _ IH]; intros l' H; simpl in H.
  - injection H as <-; constructor.
  - inv_bind H. injection H as <-. constructor; [eapply Hf; eassumption | apply IH; assumption].
Qed.

Lemma py_sum_unit l s0 s :
  Forall unit_num l -> py_for l s0 add_num = Ok s ->
  s0 <= s <= s0 + qnat (length l).
Proof.
  intro Hl. revert s0; induction Hl as [|x l [q [-> Hq]] _ IH]; intros s0 H; simpl in H.
  - injection H as <-. cbn [length]. rewrite qnat_0. lra.
  - apply IH in H. cbn [length]. rewrite qnat_S. lra.
Qed.

Lemma py_avg_unit l av :
  Forall unit_num l -> (0 < length l)%nat -> py_avg l = Ok av -> 0 <= av <= 1.
Proof.
  intros Hl Hn H. unfold py_avg, py_sum in H. inv_bind H. injection H as <-.
  apply py_sum_unit in Ha; [|exact Hl].
  pose proof (qnat_pos _ Hn) as Hp.
  split.
  - apply Qle_shift_div_l; [exact Hp | lra].
  - apply Qle_shift_div_r; [exact Hp | lra].
Qed.

Lemma history_entry_get ts r e :
  history_entry ts r = Ok e ->
  getk e "vm_confidence" (VNum 0) = Ok (VNum (vm_confidence r)) /\
  getk e "remote_access_confidence" (VNum 0) = Ok (VNum (remote_access_confidence r)) /\
  getk e "screen_share_confidence" (VNum 0) = Ok (VNum (screen_share_confidence r)).
Proof.
  unfold history_entry; intro H; inv_bind H. injection H as <-.
  repeat split; reflexivity.
Qed.

Lemma entries_unit key (proj : result -> Q) h l :
  (forall ts res e, history_entry ts res = Ok e ->
     getk e key (VNum 0) = Ok (VNum (proj res))) ->
  Forall (fun e => exists ts res, history_entry ts res = Ok e /\ 0 <= proj res <= 1) h ->
  map_res (fun e => getk e key (VNum 0)) h = Ok l -> Forall unit_num l.
Proof.
  intros Hg. apply map_res_forall.
  intros e y [ts [res [He Hr]]] Hy. apply Hg in He. rewrite He in Hy.
  injection Hy as <-. exists (proj res). split; [reflexivity | exact Hr].
Qed.

(** When every entry of the history was written by [add_detection] from a
    result whose three confidences lie in [0, 1] (as [analyze]'s do), the
    three average confidences of [analyze_patterns] lie in [0, 1]. *)
Theorem analyze_patterns_averages a t v r sc av ar asc an :
  Forall (fun e => exists ts res, history_entry ts res = Ok e /\
            0 <= vm_confidence res <= 1 /\ 0 <= remote_access_confidence res <= 1 /\
            0 <= screen_share_confidence res <= 1) (history a) ->
  analyze_patterns a = Ok (Sufficient t v r sc av ar asc an) ->
  0 <= av <= 1 /\ 0 <= ar <= 1 /\ 0 <= asc <= 1.
Proof.
  intros Hh H. unfold analyze_patterns in H.
  destruct (length (history a) <? 2)%nat eqn:H2; [discriminate|].
  apply Nat.ltb_ge in H2.
  inv_bind H. destruct (last_two (history a)) as [p c].
  inv_bind H. injection H; intros; subst.
  assert (Hv : Forall (fun e => exists ts res, history_entry ts res = Ok e /\
                 0 <= vm_confidence res <= 1) (history a))
    by (eapply Forall_impl; [|exact Hh]; intros e [ts [res [He [H1 _]]]]; eauto).
  assert (Hr : Forall (fun e => exists ts res, history_entry ts res = Ok e /\
                 0 <= remote_access_confidence res <= 1) (history a))
    by (eapply Forall_impl; [|exact Hh]; intros e [ts [res [He [_ [H1 _]]]]]; eauto).
  assert (Hs : Forall (fun e => exists ts res, history_entry ts res = Ok e /\
                 0 <= screen_share_confidence res <= 1) (history a))
    by (eapply Forall_impl; [|exact Hh]; intros e [ts [res [He [_ [_ H1]]]]]; eauto).
  repeat match goal with
  | Hm : map_res (fun e => getk e ?key (VNum 0)) (history a) = Ok ?l,
    Ha : py_avg ?l = Ok _ |- _ =>
      let Hl := fresh "Hl" in
      pose proof (map_res_length _ _ _ Hm) as Hl;
      first [ apply (entries_unit key vm_confidence) in Hm;
                [| intros ? ? ? He; apply history_entry_get in He; apply He | exact Hv]
            | apply (entries_unit key remote_access_confidence) in Hm;
                [| intros ? ? ? He; apply history_entry_get in He; apply He | exact Hr]
            | apply (entries_unit key screen_share_confidence) in Hm;
                [| intros ? ? ? He; apply history_entry_get in He; apply He | exact Hs] ];
      apply py_avg_unit in Ha; [|exact Hm | lia]; clear Hm
  end.
  auto.
Qed.

Lemma analyze_patterns_averages_witness :
  Forall (fun e => exists ts res, history_entry ts res = Ok e /\
            0 <= vm_confidence res <= 1 /\ 0 <= remote_access_confidence res <= 1 /\
            0 <= screen_share_confidence res <= 1) (history mixed_history) /\
  exists t v r sc av ar asc an,
    analyze_patterns mixed_history = Ok (Sufficient t v r sc av ar asc an) /\
    (0 <= av <= 1 /\ 0 <= ar <= 1 /\ 0 <= asc <= 1).
Proof.
  assert (Hh : Forall (fun e => exists ts res, history_entry ts res = Ok e /\
            0 <= vm_confidence res <= 1 /\ 0 <= remote_access_confidence res <= 1 /\
            0 <= screen_share_confidence res <= 1) (history mixed_history)).
  { repeat constructor.
    - exists "t0", clean_result. cbn. repeat split; first [reflexivity | lra].
    - exists "t1", vm_result. cbn. repeat split; first [reflexivity | lra].
    - exists "t2", vm_result. cbn. repeat split; first [reflexivity | lra]. }
  split; [exact Hh|].
  do 8 eexists; split; [reflexivity|].
  eapply analyze_patterns_averages; [exact Hh | reflexivity].
Defined.

(** ** The browser scan of [detect_screen_share] *)

Lemma py_for_inv_in {A B} (P : B -> Prop) (l : list A) (acc0 : B) body r :
  P acc0 ->
  (forall a x a', In x l -> P a -> body a x = Ok a' -> P a') ->
  py_for l acc0 body = Ok r -> P r.
Proof.
  revert acc0; induction l as [|x l IH]; simpl; intros acc0 H0 Hb H.
  - injection H as <-; exact H0.
  - apply res_bind_ok in H as [a' [H1 H2]].
    eapply IH; [eapply Hb; eauto | intros; eapply Hb; eauto | exact H2].
Qed.

Lemma set_add_in x s y : In y (set_add x s) -> y = x \/ In y s.
Proof.
  unfold set_add. destruct (existsb _ _); [auto|].
  rewrite in_app_iff. simpl. intuition.
Qed.

Lemma nodup_snoc {A} (s : list A) x : NoDup s -> ~ In x s -> NoDup (s ++ [x]).
Proof.
  induction s as [|y s IH]; intros Hs Hx; simpl; [repeat constructor; auto|].
  inversion Hs as [|? ? Hy Hs']; subst. constructor.
  - rewrite in_app_iff. simpl. intros [H|[H|[]]]; [contradiction|]. subst. simpl in Hx. auto.
  - apply IH; [exact Hs'|]. intro H. apply Hx. simpl. auto.
Qed.

Lemma set_add_nodup x s : NoDup s -> NoDup (set_add x s).
Proof.
  unfold set_add. intro Hs. destruct (existsb (String.eqb x) s) eqn:He; [exact Hs|].
  apply nodup_snoc; [exact Hs|].
  intro Hin. assert (existsb (String.eqb x) s = true) by
    (apply existsb_exists; exists x; split; [exact Hin | apply String.eqb_refl]).
  congruence.
Qed.

Lemma py_eq_str b x : py_eq (VStr b) x = true -> x = VStr b.
Proof.
  destruct x; simpl; try discriminate. intro H. apply String.eqb_eq in H. subst. reflexivity.
Qed.

(** The browser scan of [detect_screen_share] collects each browser at
    most once in [found_browsers] and in [found_browser_screenshare], however
    many processes it runs: a browser is in [found_browsers] only if the
    snapshot lists its lowercased name, and in [found_browser_screenshare]
    only if the snapshot lists that name followed by [_screenshare]. *)
Theorem scan_browsers_sets bs procs fb fbs :
  scan_browsers (VList bs) procs = Ok (fb, fbs) ->
  NoDup fb /\ NoDup fbs /\
  (forall b, In b fb -> In (VStr b) procs /\ exists s, In (VStr s) bs /\ lower s = b) /\
  (forall b, In b fbs -> In (VStr (b ++ "_screenshare")) procs /\
                         exists s, In (VStr s) bs /\ lower s = b).
Proof.
  unfold scan_browsers. intro H.
  set (Inv := fun p : list string * list string =>
    NoDup (fst p) /\ NoDup (snd p) /\
    (forall b, In b (fst p) -> In (VStr b) procs /\ exists s, In (VStr s) bs /\ lower s = b) /\
    (forall b, In b (snd p) -> In (VStr (b ++ "_screenshare")) procs /\
                               exists s, In (VStr s) bs /\ lower s = b)).
  change (Inv (fb, fbs)). refine (py_for_inv_in Inv _ _ _ _ _ _ H).
  - split; [constructor|]. split; [constructor|]. split; intros b [].
  - intros [f1 f2] x a' Hx Hi Hb. cbv beta iota in Hb. inv_bind Hb.
    match goal with Hit : py_iter (VList _) = Ok _ |- _ => injection Hit as <- end.
    refine (py_for_inv_in Inv _ _ _ _ Hi _ Hb).
    intros [g1 g2] y a'' Hy [N1 [N2 [I1 I2]]] Hc. cbn [fst snd] in *. inv_bind Hc.
    match goal with Hl : py_lower y = Ok _ |- _ => apply py_lower_ok in Hl as [u [-> ->]] end.
    destruct (py_eq (VStr (lower u)) x) eqn:E1;
      [|destruct (py_eq (VStr (lower u ++ "_screenshare")) x) eqn:E2];
      injection Hc as <-; unfold Inv; cbn [fst snd].
    + apply py_eq_str in E1. subst x.
      split; [apply set_add_nodup; exact N1|]. split; [exact N2|]. split; [|exact I2].
      intros b Hb'. apply set_add_in in Hb' as [->|Hb']; [|auto].
      split; [exact Hx | eauto].
    + apply py_eq_str in E2. subst x.
      split; [exact N1|]. split; [apply set_add_nodup; exact N2|]. split; [exact I1|].
      intros b Hb'. apply set_add_in in Hb' as [->|Hb']; [|auto].
      split; [exact Hx | eauto].
    + auto.
Qed.

Lemma scan_browsers_sets_witness :
  exists fb fbs,
    scan_browsers (VList [VStr "Chrome"; VStr "firefox"])
      [VStr "chrome"; VStr "chrome"; VStr "firefox_screenshare"] = Ok (fb, fbs) /\
    (NoDup fb /\ NoDup fbs /\
     (forall b, In b fb -> In (VStr b) [VStr "chrome"; VStr "chrome"; VStr "firefox_screenshare"] /\
                exists s, In (VStr s) [VStr "Chrome"; VStr "firefox"] /\ lower s = b) /\
     (forall b, In b fbs ->
        In (VStr (b ++ "_screenshare")) [VStr "chrome"; VStr "chrome"; VStr "firefox_screenshare"] /\
        exists s, In (VStr s) [VStr "Chrome"; VStr "firefox"] /\ lower s = b)).
Proof.
  do 2 eexists; split; [reflexivity|].
  apply (scan_browsers_sets [VStr "Chrome"; VStr "firefox"]
           [VStr "chrome"; VStr "chrome"; VStr "firefox_screenshare"]).
  reflexivity.
Defined.

(** ** Process names reported by the collector *)

Lemma lower_char_idem c : lower_char (lower_char c) = lower_char c.
Proof. destruct c as [[] [] [] [] [] [] [] []]; reflexivity. Qed.

Lemma lower_idem s : lower (lower s) = lower s.
Proof. induction s as [|c s IH]; simpl; [reflexivity|]. rewrite lower_char_idem, IH. reflexivity. Qed.

Lemma lower_append s t : lower (String.append s t) = String.append (lower s) (lower t).
Proof. induction s as [|c s IH]; simpl; [reflexivity|]. rewrite IH. reflexivity. Qed.

(** Every process name [get_processes] reports is in lowercase, in the
    signature-driven scan ([name] or [name_screenshare]) and in the
    fallback alike; so a signature process name with an uppercase ASCII
    letter never equals a reported name. *)
Theorem get_processes_lowercase sus br kws procs all out :
  get_processes_from sus br kws procs all = Ok out ->
  Forall (fun n => lower n = n) out /\
  (forall p, lower p <> p -> existsb (py_eq (VStr p)) (map VStr out) = false).
Proof.
  intro H.
  assert (Hl : Forall (fun n => lower n = n) out).
  { unfold get_processes_from in H.
    assert (Step : forall (found : list string) n,
              Forall (fun n => lower n = n) found -> lower n = n ->
              Forall (fun n => lower n = n) (found ++ [n]))
      by (intros; apply Forall_app; auto).
    destruct sus, br;
      (refine (py_for_inv (fun l => Forall (fun n => lower n = n) l) _ _ _ _ (Forall_nil _) _ H);
       intros found x found' Hf Hb; inv_bind Hb;
       match goal with Hx : py_lower _ = Ok _ |- _ => apply py_lower_ok in Hx as [u [_ ->]] end;
       repeat match goal with
       | Hx : (if ?c then _ else _) = Ok _ |- _ => destruct c
       | Hx : res_bind _ _ = Ok _ |- _ => inv_bind Hx
       | Hx : Ok _ = Ok _ |- _ => injection Hx as <-
       end;
       first [ exact Hf
             | apply Step; [exact Hf | apply lower_idem]
             | apply Step; [exact Hf | rewrite lower_append, lower_idem; reflexivity] ]). }
  split; [exact Hl|].
  intros p Hp. apply not_true_is_false. intro He.
  apply existsb_exists in He as [y [Hy Heq]].
  apply in_map_iff in Hy as [n [<- Hn]]. simpl in Heq. apply String.eqb_eq in Heq. subst n.
  rewrite Forall_forall in Hl. apply Hp, Hl, Hn.
Qed.

Lemma get_processes_lowercase_witness :
  exists out,
    get_processes_from [VStr "vboxservice"] [VStr "chrome"] (VList [VStr "meet.google.com"])
      sample_procs [] = Ok out /\
    (Forall (fun n => lower n = n) out /\
     (forall p, lower p <> p -> existsb (py_eq (VStr p)) (map VStr out) = false)).
Proof.
  eexists; split; [reflexivity|].
  apply (get_processes_lowercase [VStr "vboxservice"] [VStr "chrome"]
           (VList [VStr "meet.google.com"]) sample_procs []).
  reflexivity.
Defined.

(** ** The report *)

Lemma startswith_append p t : startswith (String.append p t) p = true.
Proof.
  induction p as [|c p IH]; simpl; [destruct t; reflexivity|].
  rewrite Ascii.eqb_refl. exact IH.
Qed.

Lemma filter_bullets (f : evidence -> string) ms :
  filter is_bullet (map (fun m => String.append "  - " (f m)) ms) =
  map (fun m => String.append "  - " (f m)) ms.
Proof.
  induction ms as [|m ms IH]; cbn [map filter]; [reflexivity|].
  unfold is_bullet at 1. rewrite startswith_append, IH. reflexivity.
Qed.

(** The evidence lines of [format_report] (the lines starting with
    ["  - "]) are exactly the matches of the detected categories, in the
    order VM, remote access, screen sharing: the evidence of a category
    below its threshold is never printed. The report has 4 lines besides
    the categories', and a category takes 3 lines plus one per match when
    detected, 1 line otherwise. *)
Theorem format_report_evidence pct match_text r :
  filter is_bullet (format_report_lines pct match_text r) =
  map (fun m => String.append "  - " (match_text m))
    ((if vm_detected r then vm_matches r else []) ++
     (if remote_access_detected r then remote_access_matches r else []) ++
     (if screen_share_detected r then screen_share_matches r else [])) /\
  length (format_report_lines pct match_text r) =
    (4 + (if vm_detected r then 3 + length (vm_matches r) else 1) +
     (if remote_access_detected r then 3 + length (remote_access_matches r) else 1) +
     (if screen_share_detected r then 3 + length (screen_share_matches r) else 1))%nat.
Proof.
  unfold format_report_lines, report_category. split.
  - rewrite !filter_app, !map_app.
    destruct (vm_detected r), (remote_access_detected r), (screen_share_detected r);
      rewrite ?filter_app, ?filter_bullets; simpl; rewrite ?app_nil_r; reflexivity.
  - rewrite !length_app.
    destruct (vm_detected r), (remote_access_detected r), (screen_share_detected r);
      cbn [length]; rewrite ?length_app, ?length_map; cbn [length]; lia.
Qed.

(** ** Timing findings in [detect_vm] *)

Lemma no_timing_hit self (a : acc) key dflt ev a' :
  timing_evidence ev = false -> existsb timing_evidence (snd a) = false -> hit self a key dflt ev = Ok a' -> existsb timing_evidence (snd a') = false.
Proof.
  destruct a as [q m]. unfold hit. intros He Hn H. inv_bind H. injection H as <-.
  cbn [snd] in *. rewrite existsb_app, Hn. cbn [existsb]. rewrite He. reflexivity.
Qed.

Lemma no_timing_hit_scaled self (a : acc) key dflt f ev a' :
  timing_evidence ev = false -> existsb timing_evidence (snd a) = false -> hit_scaled self a key dflt f ev = Ok a' ->
  existsb timing_evidence (snd a') = false.
Proof.
  destruct a as [q m]. unfold hit_scaled. intros He Hn H. inv_bind H.
  injection H as <-. cbn [snd] in *. rewrite existsb_app, Hn. cbn [existsb].
  rewrite He. reflexivity.
Qed.

Lemma no_timing_finish (a a' : acc) : existsb timing_evidence (snd a) = false -> finish a = Ok a' -> existsb timing_evidence (snd a') = false.
Proof. unfold finish. intros Hn H. injection H as <-. exact Hn. Qed.

Ltac nt_step :=
  match goal with
  | H : res_bind _ _ = Ok _ |- _ => inv_bind H
  | H : (if ?b then _ else _) = Ok _ |- _ => destruct b
  | H : Ok _ = Ok _ |- _ => injection H; clear H; intros; subst
  | H : hit _ ?a _ _ _ = Ok _, Hs : existsb timing_evidence (snd ?a) = false |- _ =>
      apply no_timing_hit in H; [| reflexivity | exact Hs]
  | H : hit_scaled _ ?a _ _ _ _ = Ok _, Hs : existsb timing_evidence (snd ?a) = false |- _ =>
      apply no_timing_hit_scaled in H; [| reflexivity | exact Hs]
  end.

Ltac nt_loop :=
  match goal with
  | Hf : py_for _ _ _ = Ok _ |- _ =>
      refine (py_for_inv (fun a : acc => existsb timing_evidence (snd a) = false) _ _ _ _ _ _ Hf); clear Hf;
      [first [reflexivity | assumption] | ]
  end.

Lemma check_bios_no_timing py_repr self bios (a : acc) :
  check_bios_keywords py_repr self bios = Ok a -> existsb timing_evidence (snd a) = false.
Proof.
  unfold check_bios_keywords; intro H; inv_bind H.
  eapply no_timing_finish; [|exact H]. nt_loop.
  intros [qa ma] x a' Hs Hb. repeat nt_step; assumption.
Qed.

Lemma check_mac_no_timing self macs (a : acc) :
  check_mac_addresses self macs = Ok a -> existsb timing_evidence (snd a) = false.
Proof.
  unfold check_mac_addresses; intro H; inv_bind H.
  eapply no_timing_finish; [|exact H]. nt_loop.
  intros [qa ma] x a' Hs Hb; inv_bind Hb. nt_loop.
  intros [qb mb] y a'' Hs' Hb'. repeat nt_step; assumption.
Qed.

Lemma check_processes_no_timing self ps pl (a : acc) :
  check_processes self ps pl = Ok a -> existsb timing_evidence (snd a) = false.
Proof.
  unfold check_processes; intro H; inv_bind H.
  eapply no_timing_finish; [|exact H]. nt_loop.
  intros [qa ma] x a' Hs Hb. repeat nt_step; assumption.
Qed.

Lemma check_gpu_no_timing py_repr on_windows self gpu (a : acc) :
  check_gpu_artifacts py_repr on_windows self gpu = Ok a -> existsb timing_evidence (snd a) = false.
Proof.
  unfold check_gpu_artifacts; intro H; inv_bind H.
  eapply no_timing_finish; [|exact H].
  match goal with
  | Hf : py_for _ _ _ = Ok ?p |- _ =>
      assert (existsb timing_evidence (snd p) = false)
        by (nt_loop; intros [qa ma] x a' Hs Hb; inv_bind Hb;
            nt_loop; intros [qb mb] y a'' Hs' Hb'; repeat nt_step; assumption)
  end.
  repeat nt_step; assumption.
Qed.

(** [detect_vm] runs the timing check only when the BIOS, MAC, process and
    GPU checks together score above 0.2: a timing finding in its evidence
    means those four checks, run on the snapshot's fields, sum above 0.2. *)
Theorem detect_vm_timing_needs_other_evidence py_repr on_windows self sd s m :
  detect_vm py_repr on_windows self sd = Ok (s, m) ->
  existsb timing_evidence m = true ->
  exists bios net macs vp procs gpu (a1 a2 a3 a4 : acc),
    getk sd "bios" (VDict []) = Ok bios /\ check_bios_keywords py_repr self bios = Ok a1 /\
    getk sd "network" (VDict []) = Ok net /\ getk net "mac_addresses" (VList []) = Ok macs /\
    check_mac_addresses self macs = Ok a2 /\
    sig_list self "vm_indicators" "processes" = Ok vp /\
    getk sd "processes" (VList []) = Ok procs /\ check_processes self vp procs = Ok a3 /\
    getk sd "gpu" (VDict []) = Ok gpu /\ check_gpu_artifacts py_repr on_windows self gpu = Ok a4 /\
    1#5 < 0 + fst a1 + fst a2 + fst a3 + fst a4.
Proof.
  intros H Ht. unfold detect_vm in H. inv_bind H.
  destruct (qlt (1#5) _) eqn:Hq.
  - apply qlt_true in Hq. do 10 eexists.
    repeat (split; [eassumption|]). exact Hq.
  - injection H; intros; subst.
    repeat match goal with
    | Hc : check_bios_keywords _ _ _ = Ok _ |- _ => apply check_bios_no_timing in Hc
    | Hc : check_mac_addresses _ _ = Ok _ |- _ => apply check_mac_no_timing in Hc
    | Hc : check_processes _ _ _ = Ok _ |- _ => apply check_processes_no_timing in Hc
    | Hc : check_gpu_artifacts _ _ _ _ = Ok _ |- _ => apply check_gpu_no_timing in Hc
    end.
    cbn [snd] in *. rewrite !existsb_app in Ht.
    repeat match goal with Hn : existsb timing_evidence _ = false |- _ => rewrite Hn in Ht; clear Hn end.
    discriminate Ht.
Qed.

Lemma detect_vm_timing_needs_other_evidence_witness :
  exists s m,
    detect_vm some_repr false (bios_kw_detector "virtualbox")
      (VDict [("bios", VDict [("manufacturer", VStr "innotek VirtualBox")]);
              ("timing", timing_all)]) = Ok (s, m) /\
    existsb timing_evidence m = true /\
    exists bios net macs vp procs gpu (a1 a2 a3 a4 : acc),
      getk (VDict [("bios", VDict [("manufacturer", VStr "innotek VirtualBox")]);
                   ("timing", timing_all)]) "bios" (VDict []) = Ok bios /\
      check_bios_keywords some_repr (bios_kw_detector "virtualbox") bios = Ok a1 /\
      getk (VDict [("bios", VDict [("manufacturer", VStr "innotek VirtualBox")]);
                   ("timing", timing_all)]) "network" (VDict []) = Ok net /\
      getk net "mac_addresses" (VList []) = Ok macs /\
      check_mac_addresses (bios_kw_detector "virtualbox") macs = Ok a2 /\
      sig_list (bios_kw_detector "virtualbox") "vm_indicators" "processes" = Ok vp /\
      getk (VDict [("bios", VDict [("manufacturer", VStr "innotek VirtualBox")]);
                   ("timing", timing_all)]) "processes" (VList []) = Ok procs /\
      check_processes (bios_kw_detector "virtualbox") vp procs = Ok a3 /\
      getk (VDict [("bios", VDict [("manufacturer", VStr "innotek VirtualBox")]);
                   ("timing", timing_all)]) "gpu" (VDict []) = Ok gpu /\
      check_gpu_artifacts some_repr false (bios_kw_detector "virtualbox") gpu = Ok a4 /\
      1#5 < 0 + fst a1 + fst a2 + fst a3 + fst a4.
Proof.
  do 2 eexists. split; [reflexivity|]. split; [reflexivity|].
  eapply detect_vm_timing_needs_other_evidence; [reflexivity | reflexivity].
Defined.
